(** * DOWNLOAD_IMAGES.py: fetch, normalise and re-encode a fixed list of images

    A shallow embedding of [src/DOWNLOAD_IMAGES.py].  The script is
    straight-line Python that talks to three outside parties: the HTTP
    client ([requests]), the imaging library ([PIL.Image]) and the file
    system ([os], [os.path]).  It is embedded as a state-and-exception monad
    over a [world] made of the file store and the list of calls and printed
    lines; what the network, the decoder, the colour-space tables and the
    WebP encoder answer is left to the variables of a section, so every
    statement below holds for all their behaviours.  The script is given
    twice: on a host whose console accepts every line and whose output
    directory can be created ([download_and_optimize], [main]), and on any
    host ([download_and_optimize_on], [main_on]), where [print] and
    [os.makedirs] can raise; the two agree on a cooperative host. *)

From Stdlib Require Import ZArith Lia.
From Stdlib.Strings Require Import Byte.
From stdpp Require Import gmap strings list pretty.

Open Scope Z_scope.
Open Scope string_scope.
Open Scope list_scope.

(** ** Python results: a value, or a raised exception *)

(** The subclasses of [Exception] the calls of the script raise; [str e] is
    the message. *)
Inductive exn : Type :=
| HTTPError (msg : string)
| RequestException (msg : string)
| UnidentifiedImageError (msg : string)
| ValueError (msg : string)
| OSError (msg : string)
| IndexError (msg : string)
| ZeroDivisionError (msg : string).

Definition str (e : exn) : string :=
  match e with
  | HTTPError m | RequestException m | UnidentifiedImageError m
  | ValueError m | OSError m | IndexError m | ZeroDivisionError m => m
  end.

Inductive outcome (A : Type) : Type :=
| Ret (a : A)
| Raise (e : exn).
Arguments Ret {A} a.
Arguments Raise {A} e.

(** ** Images as the imaging library stores them *)

(** One pixel in the library's storage: four bytes for the multi-band modes
    (RGB: R,G,B,pad; RGBA: R,G,B,A; LA: L,L,L,A; PA: P,P,P,A) and one byte,
    kept in [c0], for the single-band modes. *)
Record pixel : Type := Px { c0 : Z; c1 : Z; c2 : Z; c3 : Z }.

Record Image : Type := mkImage {
  mode : string;
  size : nat * nat;            (* (width, height) *)
  pixels : list pixel;         (* row by row *)
  palette : list pixel         (* RGBA entries, for the palette modes *)
}.

Definition npixels (sz : nat * nat) : nat := (sz.1 * sz.2)%nat.

(** What [Image.open] returns for a payload whose pixel data can be read:
    as many pixels as its size says. *)
Definition well_formed (img : Image) : Prop :=
  length (pixels img) = npixels (size img).

#[global] Instance well_formed_dec (img : Image) : Decision (well_formed img) :=
  decide (length (pixels img) = npixels (size img)).

(** [img.load()]: [Image.open] reads the header only, and the pixel data is
    read when an operation first needs it; a payload whose header was
    accepted but whose data is short or broken raises there.  In the model
    such an image is one that is not [well_formed]. *)
Definition Image_load (img : Image) : outcome unit :=
  if bool_decide (well_formed img) then Ret ()
  else Raise (OSError "image file is truncated").

Definition white : Z * Z * Z := (255, 255, 255).

Definition rgb_of (p : pixel) : Z * Z * Z := (c0 p, c1 p, c2 p).

(** [Image.new('RGB', size, color)] *)
Definition Image_new_RGB (sz : nat * nat) (color : Z * Z * Z) : Image :=
  let '(r, g, b) := color in
  mkImage "RGB" sz (replicate (npixels sz) (Px r g b 255)) [].

(** A palette has 256 entries in the library's core, black and opaque where
    the file gave none. *)
Definition palette_lookup (pal : list pixel) (i : Z) : pixel :=
  default (Px 0 0 0 255) (pal !! Z.to_nat i).

(** The storage offsets of the bands of a mode ([Image.getbands]). *)
Definition band_offsets (m : string) : list nat :=
  if decide (m ∈ ["RGBA"; "CMYK"; "RGBa"; "RGBX"]) then [0; 1; 2; 3]%nat
  else if decide (m ∈ ["RGB"; "YCbCr"; "LAB"; "HSV"]) then [0; 1; 2]%nat
  else if decide (m ∈ ["LA"; "PA"; "La"]) then [0; 3]%nat
  else [0%nat].

Definition component (p : pixel) (off : nat) : Z :=
  match off with
  | O => c0 p
  | 1%nat => c1 p
  | 2%nat => c2 p
  | _ => c3 p
  end.

Definition band (img : Image) (off : nat) : Image :=
  mkImage "L" (size img)
          (map (fun p => Px (component p off) 0 0 0) (pixels img)) [].

(** [Image.split]: a single-band image is copied, any other gives one "L"
    image per band. *)
Definition Image_split (img : Image) : list Image :=
  match band_offsets (mode img) with
  | [_] => [img]
  | offs => map (band img) offs
  end.

(** The rounded division by 255 of the library's blending macro. *)
Definition DIV255 (a : Z) : Z :=
  let tmp := a + 128 in
  Z.shiftr (Z.shiftr tmp 8 + tmp) 8.

Definition BLEND8 (mask in1 in2 : Z) : Z :=
  DIV255 (in1 * (255 - mask) + in2 * mask).

Definition blend_pixel (out inp msk : pixel) : pixel :=
  let a := c0 msk in
  Px (BLEND8 a (c0 out) (c0 inp)) (BLEND8 a (c1 out) (c1 inp))
     (BLEND8 a (c2 out) (c2 inp)) (BLEND8 a (c3 out) (c3 inp)).

(** The modes with an alpha band, and the opacity of the pixel at an index:
    the alpha byte, or for a palette image the alpha of its palette entry. *)
Definition has_alpha_channel (m : string) : bool :=
  bool_decide (m ∈ ["RGBA"; "LA"; "PA"; "RGBa"; "La"]).

Definition alpha_at (img : Image) (i : nat) : option Z :=
  p ← pixels img !! i;
  if has_alpha_channel (mode img) then Some (c3 p)
  else if decide (mode img = "P")
       then Some (c3 (palette_lookup (palette img) (c0 p)))
       else None.

Definition fully_transparent (img : Image) (i : nat) : Prop :=
  alpha_at img i = Some 0.

Definition rgb_at (img : Image) (i : nat) : option (Z * Z * Z) :=
  rgb_of <$> pixels img !! i.

(** ** The world the script runs in *)

Record Response : Type := mkResponse {
  status_code : Z;
  content : list byte
}.

(** A line written to stdout.  The constructors carry the values the
    script interpolates; where it prints a size in KB or MB the constructor
    keeps the byte count the printed number is computed from. *)
Inductive line : Type :=
| LSkip (photo_id : string) (size_bytes : Z)
| LDownloading (description40 : string)
| LDone (size_bytes original_bytes : Z)
| LError (message40 : string)
| LRule
| LTitle
| LIntro (n : Z) (dir : string)
| LProgress (i n : Z)
| LCompleted (success_count n : Z)
| LTotalSize (total_size : Z)
| LOutputDir (dir : string)
| LSuccess
| LNextSteps
| LWarning (failed : Z)
| LTryAgain.

(** A call that leaves the process, or a printed line, in program order. *)
Inductive event : Type :=
| Print (l : line)
| Makedirs (path : string) (exist_ok : bool)
| HttpGet (url : string) (headers : gmap string string) (timeout : Z)
| ImageOpen (payload : list byte)
| ImageNew (m : string) (sz : nat * nat) (color : Z * Z * Z)
| ImageConvert (from to : string)
| ImageSplit (m : string)
| ImagePaste (m : string) (masked : bool)
| ImageSave (path : string) (img : Image) (format : string)
            (quality method : Z) (lossless : bool).

Record world : Type := World {
  fs : gmap string (list byte);   (* the regular files, by path *)
  trace : list event
}.

(** State and exceptions: a raised exception keeps the state reached. *)
Definition M (A : Type) : Type := world → outcome A * world.

#[global] Instance M_ret : MRet M := λ A a w, (Ret a, w).
#[global] Instance M_bind : MBind M := λ A B f m w,
  match m w with
  | (Ret a, w') => f a w'
  | (Raise e, w') => (Raise e, w')
  end.

Definition raise {A} (e : exn) : M A := λ w, (Raise e, w).

Definition lift {A} (o : outcome A) : M A := λ w, (o, w).

(** [try: body except Exception as e: handler e] *)
Definition try_except {A} (body : M A) (handler : exn → M A) : M A := λ w,
  match body w with
  | (Ret a, w') => (Ret a, w')
  | (Raise e, w') => handler e w'
  end.

Definition emit (e : event) : M unit :=
  λ w, (Ret (), World (fs w) (trace w ++ [e])).

(** [print] on a standard output that accepts every line; [print_on] below
    is [print] on any host. *)
Definition print (l : line) : M unit := emit (Print l).

Definition os_path_exists (path : string) : M bool :=
  λ w, (Ret (bool_decide (is_Some (fs w !! path))), w).

Definition os_path_getsize (path : string) : M Z :=
  λ w, match fs w !! path with
       | Some c => (Ret (Z.of_nat (length c)), w)
       | None => (Raise (OSError "No such file or directory"), w)
       end.

(** Directories are not part of the file store: [os.makedirs] is recorded
    as a call.  This is the call on a host where the directory exists or can
    be created; [os_makedirs_on] below is the call on any host. *)
Definition os_makedirs (path : string) (exist_ok : bool) : M unit :=
  emit (Makedirs path exist_ok).

(** The host the process runs on, as far as the script can fail on it
    outside its [try]: whether standard output can encode the marks the
    script prints, and what creating the output directory raises, if
    anything (a regular file in the way, no permission). *)
Record host : Type := Host {
  encodes_marks : bool;
  makedirs_error : option exn
}.

(** The lines that start with a check mark, a cross or a warning sign
    (lines 67, 111, 115, 147 and 153); the other lines are ASCII. *)
Definition has_mark (l : line) : bool :=
  match l with
  | LSkip _ _ | LDone _ _ | LError _ | LSuccess | LWarning _ => true
  | _ => false
  end.

(** [print]: a line that standard output cannot encode raises
    UnicodeEncodeError, a subclass of ValueError. *)
Definition print_on (h : host) (l : line) : M unit :=
  if encodes_marks h then emit (Print l)
  else if has_mark l
       then raise (ValueError "codec can't encode character")
       else emit (Print l).

(** [os.makedirs(path, exist_ok=exist_ok)] *)
Definition os_makedirs_on (h : host) (path : string) (exist_ok : bool)
    : M unit :=
  emit (Makedirs path exist_ok);;
  match makedirs_error h with
  | Some e => raise e
  | None => mret ()
  end.

Definition write_file (path : string) (data : list byte) : M unit :=
  λ w, (Ret (), World (<[path := data]> (fs w)) (trace w)).

(** [Response.raise_for_status]: the client and server error statuses
    raise. *)
Definition raise_for_status (r : Response) : M unit :=
  if bool_decide (400 ≤ status_code r < 600)
  then raise (HTTPError (pretty (status_code r) +:+ " Error"))
  else mret ().

(** The 2xx statuses. *)
Definition success_status (s : Z) : Prop := 200 ≤ s < 300.

Definition len {A} (l : list A) : Z := Z.of_nat (length l).

(** [s[:n]] *)
Definition slice_to (n : nat) (s : string) : string := String.substring 0 n s.

(** ** The script *)

Definition IMAGES : list (string * Z * string) := [
  ("photo-1503387762-592deb58ef4e", 1920, "Architect reviewing building plans");
  ("photo-1600607687939-ce8a6c25118c", 1920, "HERO IMAGE - Modern interior living room");
  ("photo-1566073771259-6a8506099945", 1920, "Contemporary interior design");
  ("photo-1486406146926-c627a92ad1ab", 1920, "Modern office building");
  ("photo-1524813686514-a57563d77965", 1920, "Minimalist interior");
  ("photo-1556911220-bff31c812dba", 1920, "Modern kitchen design");
  ("photo-1618221195710-dd6b41faaea6", 1920, "Interior design with plants");
  ("photo-1616486338812-3dadae4b4ace", 1920, "Contemporary living space");
  ("photo-1541888946425-d81bb19240f5", 1920, "Construction site");
  ("photo-1558904541-efa843a96f01", 1200, "Service image");
  ("photo-1600210492486-724fe5c67fb0", 1200, "Floor to ceiling windows");
  ("photo-1586023492125-27b2c045efd7", 1200, "Neutral color interior");
  ("photo-1556912167-f556f1f39faa", 1200, "Multi-functional space");
  ("photo-1615873968403-89e068629265", 1200, "Modern flooring");
  ("photo-1513519245088-0e12902e35ca", 1200, "Statement wall art");
  ("photo-1505693416388-ac5ce068fe85", 1200, "Cozy reading nook");
  ("photo-1558002038-1055907df827", 1200, "Smart home technology");
  ("photo-1463320726281-696a485928c7", 1200, "Indoor plants biophilic");
  ("photo-1554224311-beee4f201d8d", 800, "Interior designer portfolio");
  ("photo-1560518883-ce09059eeffa", 1920, "Luxury interior");
  ("photo-1454165804606-c3d57bc86b40", 1200, "Budget planning");
  ("photo-1552321554-5fefe8c9ef14", 1200, "Modern bathroom");
  ("photo-1460472178825-e5240623afd5", 1200, "Design factors");
  ("photo-1523726491678-bf852e717f6a", 1200, "Cost analysis");
  ("photo-1554224155-6726b3ff858f", 1200, "Budget strategies");
  ("photo-1600880292203-757bb62b4baf", 1200, "Professional team");
  ("photo-1553877522-43269d4ea984", 1200, "Design consultation");
  ("photo-1423666639041-f56000c27a9a", 1920, "Modern architecture");
  ("photo-1507003211169-0a1dd7228f2d", 1920, "Professional portrait")
].

Definition OUTPUT_DIR : string := "assets/images".
Definition WEBP_QUALITY : Z := 85.

(** [f'{OUTPUT_DIR}/{photo_id}.webp'] *)
Definition output_path_of (photo_id : string) : string :=
  OUTPUT_DIR +:+ "/" +:+ photo_id +:+ ".webp".

(** [f'https://images.unsplash.com/{photo_id}?w={width}&q=80'] *)
Definition url_of (photo_id : string) (width : Z) : string :=
  "https://images.unsplash.com/" +:+ photo_id +:+ "?w=" +:+ pretty width
    +:+ "&q=80".

Definition request_headers : gmap string string :=
  <["User-Agent" :=
      "Mozilla/5.0 (Macintosh; Intel Mac OS X 10_15_7) AppleWebKit/537.36"]>
  (<["Referer" := "https://www.urbanways.co.in/"]> ∅).

Section Script.

(** What the outside answers. *)
Variable http_get : string → gmap string string → Z → outcome Response.
Variable image_open : list byte → outcome Image.
(** The colour-space conversions and the pastes of the library's core
    that are not written out below. *)
Variable core_convert : Image → string → outcome (list pixel).
Variable core_paste : Image → Image → option Image → outcome (list pixel).
Variable webp_encode : Image → Z → Z → bool → outcome (list byte).

(** [requests.get(url, headers=headers, timeout=timeout)] *)
Definition requests_get (url : string) (headers : gmap string string)
    (timeout : Z) : M Response :=
  emit (HttpGet url headers timeout);;
  lift (http_get url headers timeout).

(** [Image.open(io.BytesIO(payload))] *)
Definition Image_open (payload : list byte) : M Image :=
  emit (ImageOpen payload);;
  lift (image_open payload).

(** [Image.new(mode, size, color)], for the one mode the script asks. *)
Definition Image_new (sz : nat * nat) (color : Z * Z * Z) : M Image :=
  emit (ImageNew "RGB" sz color);;
  mret (Image_new_RGB sz color).

(** [img.convert(target)]: the image is loaded first; the palette
    expansions are written out, the other conversions are the core's. *)
Definition convert (img : Image) (target : string) : outcome Image :=
  match Image_load img with
  | Raise e => Raise e
  | Ret _ =>
      if decide (mode img = target) then Ret img
      else if decide (mode img = "P" ∧ target = "RGBA") then
        Ret (mkImage "RGBA" (size img)
               (map (λ p, palette_lookup (palette img) (c0 p)) (pixels img))
               [])
      else if decide (mode img = "PA" ∧ target = "RGB") then
        Ret (mkImage "RGB" (size img)
               (map (λ p, let e := palette_lookup (palette img) (c0 p) in
                          Px (c0 e) (c1 e) (c2 e) 255) (pixels img)) [])
      else match core_convert img target with
           | Ret px => Ret (mkImage target (size img) px [])
           | Raise e => Raise e
           end
  end.

Definition Image_convert (img : Image) (target : string) : M Image :=
  emit (ImageConvert (mode img) target);;
  lift (convert img target).

(** The pastes the core does byte by byte: same size, and either the same
    mode or an RGB destination with a 4-byte source carrying alpha. *)
Definition paste_direct (background im : Image) : Prop :=
  size background = size im ∧
  (mode background = mode im ∨
   (mode background = "RGB" ∧ mode im ∈ ["LA"; "RGBA"; "RGBa"])).

(** [background.paste(im, mask=mask)]: with an "L" mask every byte is
    blended by the mask value; without one the source is copied. *)
Definition paste (background im : Image) (mask : option Image)
    : outcome Image :=
  let result px :=
    mkImage (mode background) (size background) px (palette background) in
  match mask with
  | Some m =>
      if decide (paste_direct background im ∧ mode m = "L"
                 ∧ size m = size background)
      then Ret (result
             (zip_with (λ o im_m, blend_pixel o im_m.1 im_m.2)
                (pixels background) (zip (pixels im) (pixels m))))
      else match core_paste background im mask with
           | Ret px => Ret (result px)
           | Raise e => Raise e
           end
  | None =>
      if decide (paste_direct background im)
      then Ret (result (pixels im))
      else match core_paste background im mask with
           | Ret px => Ret (result px)
           | Raise e => Raise e
           end
  end.

Definition Image_paste (background im : Image) (mask : option Image)
    : M Image :=
  emit (ImagePaste (mode im) (bool_decide (is_Some mask)));;
  lift (paste background im mask).

(** [img.split()[-1]]: [split] loads the image first. *)
Definition Image_split_last (img : Image) : M Image :=
  emit (ImageSplit (mode img));;
  lift (Image_load img);;
  match last (Image_split img) with
  | Some b => mret b
  | None => raise (IndexError "tuple index out of range")
  end.

(** [img.save(path, format, quality=.., method=.., lossless=..)]: the
    file appears when the encoder succeeds. *)
Definition Image_save (img : Image) (path format : string)
    (quality method : Z) (lossless : bool) : M unit :=
  emit (ImageSave path img format quality method lossless);;
  data ← lift (webp_encode img quality method lossless);
  write_file path data.

(** Lines 86-96: the colour-mode normalisation. *)
Definition normalize (img : Image) : M Image :=
  if bool_decide (mode img ∈ ["RGBA"; "LA"; "P"]) then
    background ← Image_new (size img) (255, 255, 255);
    img ← (if bool_decide (mode img = "P")
           then Image_convert img "RGBA" else mret img);
    background ← (if bool_decide (mode img ∈ ["RGBA"; "LA"])
                  then mask ← Image_split_last img;
                       Image_paste background img (Some mask)
                  else Image_paste background img None);
    mret background
  else if bool_decide (mode img ≠ "RGB") then Image_convert img "RGB"
  else mret img.

Definition download_and_optimize (photo_id : string) (width : Z)
    (description : string) : M bool :=
  let url := url_of photo_id width in
  let output_path := output_path_of photo_id in
  present ← os_path_exists output_path;
  if present : bool then
    size_bytes ← os_path_getsize output_path;
    print (LSkip photo_id size_bytes);;
    mret true
  else
    try_except
      (print (LDownloading (slice_to 40 description));;
       let headers := request_headers in
       response ← requests_get url headers 30;
       raise_for_status response;;
       img ← Image_open (content response);
       img ← normalize img;
       Image_save img output_path "WEBP" WEBP_QUALITY 6 false;;
       size_bytes ← os_path_getsize output_path;
       let original_bytes := len (content response) in
       (if bool_decide (original_bytes = 0)
        then raise (ZeroDivisionError "float division by zero")
        else mret ());;
       print (LDone size_bytes original_bytes);;
       mret true)
      (λ e, print (LError (slice_to 40 (str e)));;
            mret false).

(** The [for] loop of [main], with its two counters. *)
Fixpoint download_all (items : list (string * Z * string)) (i : Z)
    (success_count total_size : Z) : M (Z * Z) :=
  match items with
  | [] => mret (success_count, total_size)
  | (photo_id, width, description) :: rest =>
      print (LProgress i (len IMAGES));;
      ok ← download_and_optimize photo_id width description;
      if ok : bool then
        let output_path := output_path_of photo_id in
        present ← os_path_exists output_path;
        total_size ← (if present : bool
                      then sz ← os_path_getsize output_path;
                           mret (total_size + sz)
                      else mret total_size);
        download_all rest (i + 1) (success_count + 1) total_size
      else download_all rest (i + 1) success_count total_size
  end.

Definition main : M unit :=
  print LRule;; print LTitle;; print LRule;;
  print (LIntro (len IMAGES) OUTPUT_DIR);;
  os_makedirs OUTPUT_DIR true;;
  counters ← download_all IMAGES 1 0 0;
  let '(success_count, total_size) := counters in
  print LRule;;
  print (LCompleted success_count (len IMAGES));;
  print (LTotalSize total_size);;
  print (LOutputDir OUTPUT_DIR);;
  print LRule;;
  if bool_decide (success_count = len IMAGES) then
    print LSuccess;; print LNextSteps
  else
    print (LWarning (len IMAGES - success_count));;
    print LTryAgain.

(** The process: exit status 0 when [main] returns, 1 when an exception
    reaches the top. *)
Definition run_script (w : world) : Z * world :=
  match main w with
  | (Ret _, w') => (0, w')
  | (Raise _, w') => (1, w')
  end.

(** The per-item results of the loop over [items] started in [w], in
    order, and the world it ends in: the success indicator of each call of
    [download_and_optimize], with an escaping exception counted as no
    success. *)
Fixpoint outcomes (items : list (string * Z * string)) (i : Z) (w : world)
    : list bool * world :=
  match items with
  | [] => ([], w)
  | (photo_id, width, description) :: rest =>
      let w1 := (print (LProgress i (len IMAGES)) w).2 in
      let '(r, w2) := download_and_optimize photo_id width description w1 in
      let b := match r with Ret b => b | Raise _ => false end in
      let '(bs, w3) := outcomes rest (i + 1) w2 in
      (b :: bs, w3)
  end.

End Script.

(** ** The script on any host

    The same two functions with the calls that can fail outside the [try]
    left to the host: [print] and [os.makedirs]. *)

Section ScriptOnHost.

Variable h : host.
Variable http_get : string → gmap string string → Z → outcome Response.
Variable image_open : list byte → outcome Image.
Variable core_convert : Image → string → outcome (list pixel).
Variable core_paste : Image → Image → option Image → outcome (list pixel).
Variable webp_encode : Image → Z → Z → bool → outcome (list byte).

Definition download_and_optimize_on (photo_id : string) (width : Z)
    (description : string) : M bool :=
  let url := url_of photo_id width in
  let output_path := output_path_of photo_id in
  present ← os_path_exists output_path;
  if present : bool then
    size_bytes ← os_path_getsize output_path;
    print_on h (LSkip photo_id size_bytes);;
    mret true
  else
    try_except
      (print_on h (LDownloading (slice_to 40 description));;
       let headers := request_headers in
       response ← requests_get http_get url headers 30;
       raise_for_status response;;
       img ← Image_open image_open (content response);
       img ← normalize core_convert core_paste img;
       Image_save webp_encode img output_path "WEBP" WEBP_QUALITY 6 false;;
       size_bytes ← os_path_getsize output_path;
       let original_bytes := len (content response) in
       (if bool_decide (original_bytes = 0)
        then raise (ZeroDivisionError "float division by zero")
        else mret ());;
       print_on h (LDone size_bytes original_bytes);;
       mret true)
      (λ e, print_on h (LError (slice_to 40 (str e)));;
            mret false).

Fixpoint download_all_on (items : list (string * Z * string)) (i : Z)
    (success_count total_size : Z) : M (Z * Z) :=
  match items with
  | [] => mret (success_count, total_size)
  | (photo_id, width, description) :: rest =>
      print_on h (LProgress i (len IMAGES));;
      ok ← download_and_optimize_on photo_id width description;
      if ok : bool then
        let output_path := output_path_of photo_id in
        present ← os_path_exists output_path;
        total_size ← (if present : bool
                      then sz ← os_path_getsize output_path;
                           mret (total_size + sz)
                      else mret total_size);
        download_all_on rest (i + 1) (success_count + 1) total_size
      else download_all_on rest (i + 1) success_count total_size
  end.

Definition main_on : M unit :=
  print_on h LRule;; print_on h LTitle;; print_on h LRule;;
  print_on h (LIntro (len IMAGES) OUTPUT_DIR);;
  os_makedirs_on h OUTPUT_DIR true;;
  counters ← download_all_on IMAGES 1 0 0;
  let '(success_count, total_size) := counters in
  print_on h LRule;;
  print_on h (LCompleted success_count (len IMAGES));;
  print_on h (LTotalSize total_size);;
  print_on h (LOutputDir OUTPUT_DIR);;
  print_on h LRule;;
  if bool_decide (success_count = len IMAGES) then
    print_on h LSuccess;; print_on h LNextSteps
  else
    print_on h (LWarning (len IMAGES - success_count));;
    print_on h LTryAgain.

(** The process: exit status 0 when [main] returns, 1 when an exception
    reaches the top. *)
Definition run_script_on (w : world) : Z * world :=
  match main_on w with
  | (Ret _, w') => (0, w')
  | (Raise _, w') => (1, w')
  end.

End ScriptOnHost.

(** ** Reading a run *)

Definition photo_id_of (item : string * Z * string) : string := item.1.1.

Definition item_path (item : string * Z * string) : string :=
  output_path_of (photo_id_of item).

(** The paths the 29 items are written to. *)
Definition expected_paths : list string := item_path <$> IMAGES.

(** [os.path.getsize] of a file of the store, 0 for a path that is not
    there. *)
Definition file_size (store : gmap string (list byte)) (path : string) : Z :=
  from_option len 0 (store !! path).

(** The items of a run that returned success. *)
Definition succeeded (items : list (string * Z * string)) (bs : list bool)
    : list (string * Z * string) :=
  (List.filter snd (zip items bs)).*1.

Definition sum_Z (l : list Z) : Z := foldr Z.add 0 l.

(** What [main] has printed and called when the loop starts. *)
Definition prelude : list event :=
  [Print LRule; Print LTitle; Print LRule;
   Print (LIntro (len IMAGES) OUTPUT_DIR); Makedirs OUTPUT_DIR true].

Definition started (w : world) : world :=
  World (fs w) (trace w ++ prelude).

(** The summary block and the closing message for a success count and a
    total size. *)
Definition summary (success_count total_size : Z) : list event :=
  [Print LRule; Print (LCompleted success_count (len IMAGES));
   Print (LTotalSize total_size); Print (LOutputDir OUTPUT_DIR); Print LRule].

Definition all_succeeded_message : list event :=
  [Print LSuccess; Print LNextSteps].

Definition partial_failure_warning (failed : Z) : list event :=
  [Print (LWarning failed); Print LTryAgain].

(** The files of the store that lie in a directory. *)
Definition files_in (dir : string) (store : gmap string (list byte))
    : gset string :=
  filter (λ path, String.prefix (dir +:+ "/") path = true) (dom store).

(** The request the script sends for an item. *)
Definition request_for (item : string * Z * string) : event :=
  HttpGet (url_of item.1.1 item.1.2) request_headers 30.

(** The items whose output file is not in a store, and those whose file
    is. *)
Definition missing (store : gmap string (list byte))
    (items : list (string * Z * string)) : list (string * Z * string) :=
  List.filter (λ it, bool_decide (store !! item_path it = None)) items.

Definition present (store : gmap string (list byte))
    (items : list (string * Z * string)) : list (string * Z * string) :=
  List.filter (λ it, bool_decide (is_Some (store !! item_path it))) items.

(** The colour a source pixel shows: its own first three bytes, or for a
    palette image those of its palette entry. *)
Definition colour_at (img : Image) (i : nat) : option (Z * Z * Z) :=
  p ← pixels img !! i;
  Some (rgb_of (if decide (mode img = "P")
                then palette_lookup (palette img) (c0 p) else p)).

Definition byte_valued (c : Z * Z * Z) : Prop :=
  (0 ≤ c.1.1 ≤ 255)%Z ∧ (0 ≤ c.1.2 ≤ 255)%Z ∧ (0 ≤ c.2 ≤ 255)%Z.

(** ** Reading a trace *)

Definition is_request (e : event) : bool :=
  match e with HttpGet _ _ _ => true | _ => false end.

Definition is_imaging (e : event) : bool :=
  match e with
  | ImageOpen _ | ImageNew _ _ _ | ImageConvert _ _ | ImageSplit _
  | ImagePaste _ _ | ImageSave _ _ _ _ _ _ => true
  | _ => false
  end.

Definition is_save (e : event) : bool :=
  match e with ImageSave _ _ _ _ _ _ => true | _ => false end.

Definition is_progress (e : event) : bool :=
  match e with Print (LProgress _ _) => true | _ => false end.

(** The events a computation adds to the trace. *)
Definition adds (w w' : world) (evs : list event) : Prop :=
  trace w' = trace w ++ evs.

(** ** Sample worlds and outside parties, to run the script on *)

Definition net_down : string → gmap string string → Z → outcome Response :=
  λ _ _ _, Raise (RequestException "Connection refused").

Definition net_status (s : Z) (body : list byte)
    : string → gmap string string → Z → outcome Response :=
  λ _ _ _, Ret (mkResponse s body).

Definition decode_as (img : Image) : list byte → outcome Image :=
  λ _, Ret img.

Definition no_core_convert : Image → string → outcome (list pixel) :=
  λ _ _, Raise (ValueError "conversion not supported").

Definition no_core_paste
    : Image → Image → option Image → outcome (list pixel) :=
  λ _ _ _, Raise (ValueError "images do not match").

Definition encode_riff : Image → Z → Z → bool → outcome (list byte) :=
  λ _ _ _ _, Ret [x52; x49; x46; x46].

Definition empty_world : world := World ∅ [].

(** A host with a UTF-8 console and a directory that can be created; one
    whose console cannot encode the marks; one where a regular file sits at
    the path of the output directory. *)
Definition cooperative_host : host := Host true None.

Definition legacy_console_host : host := Host false None.

Definition blocked_directory_host : host :=
  Host true (Some (OSError "File exists")).

(** A 2x1 RGBA image: one fully transparent pixel, one opaque. *)
Definition rgba_sample : Image :=
  mkImage "RGBA" (2, 1)%nat [Px 10 20 30 0; Px 10 20 30 255] [].

(** A 1x1 palette-with-alpha image whose only pixel is fully transparent
    over a black palette entry. *)
Definition pa_sample : Image :=
  mkImage "PA" (1, 1)%nat [Px 0 0 0 0] [Px 0 0 0 255].

(** A 1x1 palette image whose only pixel points at a fully transparent
    palette entry. *)
Definition palette_sample : Image :=
  mkImage "P" (1, 1)%nat [Px 0 0 0 0] [Px 200 100 50 0].

(** A 1x1 palette image whose header was read but whose pixel data is
    missing. *)
Definition truncated_palette_sample : Image :=
  mkImage "P" (1, 1)%nat [] [Px 200 100 50 0].

(** A world where the file of item "photo-1" is already there. *)
Definition one_file_world : world :=
  World {[ output_path_of "photo-1" := [x52; x49] ]} [].

(** A store that holds the 29 expected files, and a world whose output
    directory holds them and one more file. *)
Definition complete_store : gmap string (list byte) :=
  list_to_map ((λ path, (path, [x52])) <$> expected_paths).

Definition stray_path : string := OUTPUT_DIR +:+ "/notes.webp".

Definition crowded_world : world :=
  World (<[stray_path := [x00]]> complete_store) [].

(** The world after item "photo-1" is fetched, decoded to the RGBA sample
    and encoded, starting with no file. *)
Definition fetched_world : world :=
  (download_and_optimize (net_status 200 [x01]) (decode_as rgba_sample)
     no_core_convert no_core_paste encode_riff "photo-1" 1920 "Sample"
     empty_world).2.

(** A 1x1 opaque RGB image. *)
Definition rgb_sample : Image :=
  mkImage "RGB" (1, 1)%nat [Px 10 20 30 255] [].

(** A decoder that rejects every payload, and one that rejects only the
    empty payload. *)
Definition decode_fails : list byte → outcome Image :=
  λ _, Raise (UnidentifiedImageError "cannot identify image file").

Definition decode_nonempty_as (img : Image) : list byte → outcome Image :=
  λ payload, match payload with
             | [] => Raise (UnidentifiedImageError "cannot identify image file")
             | _ => Ret img
             end.

(** A world that holds exactly the 29 expected files. *)
Definition complete_world : world := World complete_store [].

(** * Properties *)

Ltac unfold_ops :=
  unfold Image_new, Image_convert, Image_paste, Image_split_last, Image_save,
    Image_open, requests_get, raise_for_status, os_path_exists,
    os_path_getsize, os_makedirs, write_file, print, emit, lift, raise,
    try_except, mbind, M_bind, mret, M_ret in *.

Lemma DIV255_white : ∀ inp, BLEND8 0 255 inp = 255.
Proof. intros inp. unfold BLEND8, DIV255. by rewrite Z.mul_0_r. Qed.

Lemma blend_transparent out inp msk :
  rgb_of out = white → c0 msk = 0 → rgb_of (blend_pixel out inp msk) = white.
Proof.
  destruct out as [o0 o1 o2 o3]. unfold rgb_of, white, blend_pixel. simpl.
  intros [= -> -> ->] ->. by rewrite !DIV255_white.
Qed.

Section Normalize.
Variable core_convert : Image → string → outcome (list pixel).
Variable core_paste : Image → Image → option Image → outcome (list pixel).

#[local] Arguments paste : simpl never.
#[local] Arguments convert : simpl never.

#[local] Abbreviation normalize := (normalize core_convert core_paste).
#[local] Abbreviation paste := (paste core_paste).

Lemma paste_masked_direct background im m :
  size im = size background → size m = size background →
  mode background = "RGB" → mode im ∈ ["LA"; "RGBA"; "RGBa"] →
  mode m = "L" →
  paste background im (Some m) =
    Ret (mkImage "RGB" (size background)
           (zip_with (λ o im_m, blend_pixel o im_m.1 im_m.2)
              (pixels background) (zip (pixels im) (pixels m)))
           (palette background)).
Proof.
  intros Hs Hm Hb Hi HL. unfold paste.
  rewrite decide_True; [by rewrite Hb |].
  unfold paste_direct. by auto.
Qed.

Lemma Image_load_ok img : well_formed img → Image_load img = Ret ().
Proof. intros H. unfold Image_load. by rewrite bool_decide_eq_true_2. Qed.

Lemma Image_load_fails img :
  ¬ well_formed img →
  Image_load img = Raise (OSError "image file is truncated").
Proof. intros H. unfold Image_load. by rewrite bool_decide_eq_false_2. Qed.

#[local] Arguments Image_load : simpl never.

Lemma convert_palette img :
  mode img = "P" → well_formed img →
  convert core_convert img "RGBA"
  = Ret (mkImage "RGBA" (size img)
           (map (λ p, palette_lookup (palette img) (c0 p)) (pixels img)) []).
Proof.
  intros Hm Hwf. unfold convert. rewrite (Image_load_ok _ Hwf), Hm.
  rewrite decide_False by done. by rewrite decide_True.
Qed.

(** The image the compositing branch hands on: every byte of a white
    canvas blended with the source under the source's own alpha. *)
Lemma normalize_alpha img w :
  mode img = "RGBA" ∨ mode img = "LA" →
  well_formed img →
  normalize img w =
    (Ret (mkImage "RGB" (size img)
            (zip_with (λ o im_m, blend_pixel o im_m.1 im_m.2)
               (replicate (npixels (size img)) (Px 255 255 255 255))
               (zip (pixels img)
                    (map (λ p, Px (c3 p) 0 0 0) (pixels img)))) []),
     World (fs w)
       (trace w ++ [ImageNew "RGB" (size img) (255, 255, 255);
                    ImageSplit (mode img); ImagePaste (mode img) true])).
Proof.
  intros Hm Hwf. unfold normalize.
  rewrite bool_decide_eq_true_2 by (destruct Hm as [-> | ->]; set_solver).
  rewrite bool_decide_eq_false_2 by (destruct Hm as [-> | ->]; done).
  unfold_ops. cbn -[Image_load paste Image_split bool_decide].
  rewrite bool_decide_eq_true_2 by (destruct Hm as [-> | ->]; set_solver).
  cbn -[Image_load paste Image_split bool_decide].
  rewrite (Image_load_ok _ Hwf).
  assert (last (Image_split img) = Some (band img 3)) as ->
    by (unfold Image_split; destruct Hm as [-> | ->]; reflexivity).
  cbn -[paste].
  rewrite paste_masked_direct;
    [| done | done | done | destruct Hm as [-> | ->]; set_solver | done].
  cbn. by rewrite <- ?app_assoc.
Qed.

Lemma normalize_palette img w :
  mode img = "P" →
  well_formed img →
  normalize img w =
    (let rgba := map (λ p, palette_lookup (palette img) (c0 p))
                     (pixels img) in
     Ret (mkImage "RGB" (size img)
            (zip_with (λ o im_m, blend_pixel o im_m.1 im_m.2)
               (replicate (npixels (size img)) (Px 255 255 255 255))
               (zip rgba (map (λ p, Px (c3 p) 0 0 0) rgba))) []),
     World (fs w)
       (trace w ++ [ImageNew "RGB" (size img) (255, 255, 255);
                    ImageConvert "P" "RGBA";
                    ImageSplit "RGBA"; ImagePaste "RGBA" true])).
Proof.
  intros Hm Hwf. unfold normalize.
  rewrite bool_decide_eq_true_2 by (rewrite Hm; set_solver).
  rewrite bool_decide_eq_true_2 by done.
  unfold_ops. cbn -[Image_load paste Image_split bool_decide convert].
  rewrite (convert_palette _ Hm Hwf), Hm.
  cbn -[Image_load paste Image_split convert].
  rewrite Image_load_ok
    by (unfold well_formed; cbn; by rewrite length_map).
  rewrite bool_decide_eq_true_2 by set_solver.
  match goal with
  | |- context [last (Image_split ?x)] =>
      replace (last (Image_split x)) with (Some (band x 3)) by reflexivity
  end.
  cbn -[paste].
  rewrite paste_masked_direct; [| done | done | done | set_solver | done].
  cbn. by rewrite <- ?app_assoc.
Qed.

(** An image whose data cannot be loaded never reaches a paste: the
    conversion of a palette image, or the split of an image with alpha,
    raises. *)
Lemma normalize_unloadable img w :
  mode img ∈ ["RGBA"; "LA"; "P"] →
  ¬ well_formed img →
  normalize img w =
    (Raise (OSError "image file is truncated"),
     World (fs w)
       (trace w ++ [ImageNew "RGB" (size img) (255, 255, 255);
                    if decide (mode img = "P")
                    then ImageConvert "P" "RGBA"
                    else ImageSplit (mode img)])).
Proof.
  intros Hmode Hwf. unfold normalize.
  rewrite bool_decide_eq_true_2 by done.
  destruct (decide (mode img = "P")) as [Hm | Hm].
  - rewrite bool_decide_eq_true_2 by done.
    unfold_ops. cbn -[Image_load paste Image_split bool_decide convert].
    unfold convert. rewrite (Image_load_fails _ Hwf), Hm.
    cbn. by rewrite <- ?app_assoc.
  - rewrite bool_decide_eq_false_2 by done.
    unfold_ops. cbn -[Image_load paste Image_split bool_decide].
    rewrite bool_decide_eq_true_2 by (set_unfold; naive_solver).
    cbn -[Image_load paste Image_split bool_decide].
    rewrite (Image_load_fails _ Hwf).
    cbn. by rewrite <- ?app_assoc.
Qed.

Lemma normalize_other img w :
  mode img ∉ ["RGBA"; "LA"; "P"] →
  normalize img w =
    if decide (mode img = "RGB") then (Ret img, w)
    else (convert core_convert img "RGB",
          World (fs w) (trace w ++ [ImageConvert (mode img) "RGB"])).
Proof.
  intros Hm. unfold normalize.
  rewrite bool_decide_eq_false_2 by done.
  destruct (decide (mode img = "RGB")) as [Heq | Hne].
  - by rewrite bool_decide_eq_false_2 by (by intros ?).
  - rewrite bool_decide_eq_true_2 by done. unfold_ops. simpl.
    by destruct (convert _ _ _).
Qed.

Lemma convert_mode img target img' :
  convert core_convert img target = Ret img' →
  mode img' = target ∧ size img' = size img.
Proof.
  unfold convert. destruct (Image_load img); [| done].
  repeat case_decide; try destruct (core_convert _ _);
    intros [= <-]; simpl; naive_solver.
Qed.

(** Every path of the normalisation: the file store is untouched, the
    events added are imaging calls that are neither a decode nor a save,
    no paste goes without a mask, and a result is RGB of the same
    size. *)
Lemma normalize_shape img w :
  ∃ r evs, normalize img w = (r, World (fs w) (trace w ++ evs))
    ∧ (∀ img', r = Ret img' → mode img' = "RGB" ∧ size img' = size img)
    ∧ (∀ e, e ∈ evs → is_imaging e = true ∧ is_save e = false
                       ∧ is_request e = false ∧ is_progress e = false)
    ∧ (∀ m b, ImagePaste m b ∈ evs → b = true ∧ (m = "RGBA" ∨ m = "LA"))
    ∧ (mode img ∈ ["RGBA"; "LA"; "P"] → well_formed img →
         ∃ m, ImagePaste m true ∈ evs).
Proof.
  destruct (decide (mode img ∈ ["RGBA"; "LA"; "P"])) as [Hin | Hout].
  - destruct (decide (well_formed img)) as [Hwf | Hwf].
    + assert ((mode img = "RGBA" ∨ mode img = "LA") ∨ mode img = "P")
        as [Hm | Hm] by (set_unfold; naive_solver).
      * rewrite normalize_alpha by done. eexists _, _. split; [done |].
        split; [by intros ? [= <-] |].
        split; [intros e; set_unfold; naive_solver |].
        split; [| intros _ _; exists (mode img); set_solver].
        intros m b. set_unfold. naive_solver.
      * rewrite normalize_palette by done. eexists _, _. split; [done |].
        split; [by intros ? [= <-] |].
        split; [intros e; set_unfold; naive_solver |].
        split; [| intros _ _; exists "RGBA"; set_solver].
        intros m b. set_unfold. naive_solver.
    + rewrite normalize_unloadable by done. eexists _, _. split; [done |].
      split; [by intros ? [=] |].
      split; [intros e; case_decide; set_unfold; naive_solver |].
      split; [| by intros _ ?].
      intros m b. case_decide; set_unfold; naive_solver.
  - rewrite normalize_other by done. case_decide as Hrgb.
    + exists (Ret img), []. rewrite app_nil_r. destruct w. simpl.
      split; [done |]. split; [by intros ? [= <-] |].
      split; [intros e; set_solver |]. split; [set_solver | done].
    + eexists _, _. split; [done |].
      split; [apply convert_mode |].
      split; [intros e; set_unfold; naive_solver |].
      split; [set_solver | done].
Qed.
End Normalize.

#[global] Arguments normalize : simpl never.

Lemma filter_none {A} (f : A → bool) (l : list A) :
  (∀ x, x ∈ l → f x = false) → List.filter f l = [].
Proof.
  induction l as [| a l IH]; [done |]. intros H. simpl.
  rewrite (H a) by set_solver. apply IH. intros x Hx. apply H. set_solver.
Qed.

Ltac dao_leaf :=
  simpl; rewrite <- ?app_assoc; simpl;
  eexists _, _, _; split; [reflexivity |]; split; [reflexivity |];
  simpl; rewrite ?List.filter_app; simpl;
  repeat match goal with
         | H : List.filter _ _ = [] |- _ => rewrite H
         end; simpl.

Ltac dao_events :=
  let e0 := fresh "e" in
  let Hin := fresh "Hin" in
  let Hs := fresh "Hs" in
  intros e0 Hin Hs; set_unfold in Hin;
  repeat match goal with
         | H : _ ∨ _ |- _ => destruct H
         end;
  first
    [ contradiction
    | subst e0; simpl in Hs; discriminate
    | subst e0; eexists; split; [reflexivity | assumption]
    | match goal with
      | Hf : ∀ e, e ∈ ?l → _, Hx : _ ∈ ?l |- _ =>
          apply Hf in Hx; destruct Hx as (_ & Hx & _); congruence
      end ].

Ltac dao_failed :=
  split; [done |]; split; [done |]; split; [dao_events |];
  split; [by left |]; split; [intros [=] |]; split; [| intros [=]];
  first [ intros ? _ _; repeat split; reflexivity
        | intros ? [= <-] ?;
          match goal with H : ¬ _ |- _ => by destruct H end ].

Section PerItem.
Variable http_get : string → gmap string string → Z → outcome Response.
Variable image_open : list byte → outcome Image.
Variable core_convert : Image → string → outcome (list pixel).
Variable core_paste : Image → Image → option Image → outcome (list pixel).
Variable webp_encode : Image → Z → Z → bool → outcome (list byte).

#[local] Abbreviation download_and_optimize :=
  (download_and_optimize http_get image_open core_convert core_paste
     webp_encode).

(** The early exit: the file is there, nothing else happens. *)
Lemma download_and_optimize_present photo_id width description w data :
  fs w !! output_path_of photo_id = Some data →
  download_and_optimize photo_id width description w =
    (Ret true,
     World (fs w) (trace w ++ [Print (LSkip photo_id (len data))])).
Proof.
  intros Hex. unfold download_and_optimize. unfold_ops.
  rewrite Hex. simpl. by rewrite Hex.
Qed.

(** Every path behind the existence check. *)
Lemma download_and_optimize_fresh photo_id width description w :
  fs w !! output_path_of photo_id = None →
  ∃ b w' evs,
    download_and_optimize photo_id width description w = (Ret b, w')
    ∧ adds w w' evs
    ∧ List.filter is_request evs
        = [HttpGet (url_of photo_id width) request_headers 30]
    ∧ List.filter is_progress evs = []
    ∧ (∀ e, e ∈ evs → is_save e = true →
         ∃ img, e = ImageSave (output_path_of photo_id) img "WEBP" 85 6 false
                ∧ mode img = "RGB")
    ∧ (fs w' = fs w
       ∨ ∃ img data, webp_encode img 85 6 false = Ret data
                     ∧ fs w' = <[output_path_of photo_id := data]> (fs w))
    ∧ (b = true →
         ∃ img data,
           List.filter is_save evs
             = [ImageSave (output_path_of photo_id) img "WEBP" 85 6 false]
           ∧ mode img = "RGB"
           ∧ webp_encode img 85 6 false = Ret data
           ∧ fs w' = <[output_path_of photo_id := data]> (fs w))
    ∧ (∀ r, http_get (url_of photo_id width) request_headers 30 = Ret r →
            400 ≤ status_code r < 600 →
            b = false ∧ fs w' = fs w ∧ List.filter is_save evs = [])
    ∧ (b = true →
         ∃ r img0, http_get (url_of photo_id width) request_headers 30 = Ret r
                   ∧ ¬ 400 ≤ status_code r < 600
                   ∧ image_open (content r) = Ret img0).
Proof.
  intros Hnone. unfold download_and_optimize, adds. unfold_ops.
  rewrite Hnone. simpl.
  destruct (http_get _ _ _) as [resp | e] eqn:Hget.
  2:{ dao_leaf. dao_failed. }
  case_bool_decide as Hst.
  { dao_leaf. dao_failed. }
  simpl. destruct (image_open _) as [img | e] eqn:Hopen.
  2:{ dao_leaf. dao_failed. }
  simpl.
  match goal with
  | |- context [normalize ?a ?b ?i ?w0] =>
      destruct (normalize_shape a b i w0)
        as (r & evsN & Hn & Hrgb & Hev & _ & _); rewrite Hn; clear Hn
  end.
  assert (List.filter is_request evsN = []) as Hfr
    by (apply filter_none; intros x Hx; by apply Hev in Hx as (_ & _ & ? & _)).
  assert (List.filter is_progress evsN = []) as Hfp
    by (apply filter_none; intros x Hx; by apply Hev in Hx as (_ & _ & _ & ?)).
  assert (List.filter is_save evsN = []) as Hfs
    by (apply filter_none; intros x Hx; by apply Hev in Hx as (_ & ? & _)).
  destruct r as [img' | e].
  2:{ dao_leaf. dao_failed. }
  destruct (Hrgb img' eq_refl) as [Hmode _].
  simpl. destruct (webp_encode _ _ _ _) as [data | e] eqn:Henc.
  2:{ dao_leaf. dao_failed. }
  simpl. rewrite lookup_insert_eq.
  case_bool_decide as Hzero.
  - dao_leaf. split; [done |]. split; [done |]. split; [dao_events |].
    split; [right; by exists img', data |]. split; [intros [=] |].
    split; [| intros [=]].
    intros r [= <-] Hr. by destruct Hst.
  - dao_leaf. split; [done |]. split; [done |]. split; [dao_events |].
    split; [right; by exists img', data |].
    split; [intros _; by exists img', data |].
    split; [| intros _; by exists resp, img].
    intros r [= <-] Hr. by destruct Hst.
Qed.
End PerItem.

Section Loop.
Variable http_get : string → gmap string string → Z → outcome Response.
Variable image_open : list byte → outcome Image.
Variable core_convert : Image → string → outcome (list pixel).
Variable core_paste : Image → Image → option Image → outcome (list pixel).
Variable webp_encode : Image → Z → Z → bool → outcome (list byte).

#[local] Abbreviation download_and_optimize :=
  (download_and_optimize http_get image_open core_convert core_paste
     webp_encode).
#[local] Abbreviation download_all :=
  (download_all http_get image_open core_convert core_paste webp_encode).
#[local] Abbreviation outcomes :=
  (outcomes http_get image_open core_convert core_paste webp_encode).
#[local] Abbreviation main :=
  (main http_get image_open core_convert core_paste webp_encode).

(** One item, whatever the outside answers: the call returns, prints no
    progress prefix, keeps every file that was there, adds at most the
    item's own, and a success leaves the item's file in place. *)
Lemma download_and_optimize_returns photo_id width description w :
  ∃ b w' evs,
    download_and_optimize photo_id width description w = (Ret b, w')
    ∧ adds w w' evs
    ∧ List.filter is_progress evs = []
    ∧ (∀ p c, fs w !! p = Some c → fs w' !! p = Some c)
    ∧ (∀ p, is_Some (fs w' !! p) →
            is_Some (fs w !! p) ∨ p = output_path_of photo_id)
    ∧ (b = true → is_Some (fs w' !! output_path_of photo_id)).
Proof.
  destruct (fs w !! output_path_of photo_id) as [data |] eqn:Hp.
  - rewrite (download_and_optimize_present _ _ _ _ _ _ _ _ _ _ Hp).
    eexists _, _, _. split; [done |]. split; [done |]. simpl.
    split; [done |]. split; [done |]. split; [by left |].
    intros _. by rewrite Hp.
  - destruct (download_and_optimize_fresh http_get image_open core_convert
                core_paste webp_encode photo_id width description w Hp)
      as (b & w' & evs & Heq & Hadds & _ & Hprog & _ & Hfs & Htrue & _).
    exists b, w', evs. split; [done |]. split; [done |]. split; [done |].
    destruct Hfs as [Hfs | (img & data & _ & Hfs)]; rewrite Hfs.
    + split; [done |]. split; [by left |].
      intros Hb. destruct (Htrue Hb) as (? & ? & _ & _ & _ & Hw).
      rewrite <- Hfs, Hw. by rewrite lookup_insert_eq.
    + split.
      { intros p c Hpc. rewrite lookup_insert_ne; [done | congruence]. }
      split.
      { intros p. rewrite lookup_insert. case_decide; [by right | by left]. }
      intros _. by rewrite lookup_insert_eq.
Qed.

Lemma succeeded_cons item items b bs :
  succeeded (item :: items) (b :: bs)
  = if b then item :: succeeded items bs else succeeded items bs.
Proof. unfold succeeded. simpl. by destruct b. Qed.

Lemma outcomes_cons photo_id width description rest i w :
  outcomes ((photo_id, width, description) :: rest) i w
  = let '(r, w2) := download_and_optimize photo_id width description
                      (print (LProgress i (len IMAGES)) w).2 in
    let '(bs, w3) := outcomes rest (i + 1) w2 in
    (match r with Ret b => b | Raise _ => false end :: bs, w3).
Proof. reflexivity. Qed.

Lemma download_all_cons photo_id width description rest i s t w :
  download_all ((photo_id, width, description) :: rest) i s t w
  = match download_and_optimize photo_id width description
            (print (LProgress i (len IMAGES)) w).2 with
    | (Ret true, w2) =>
        download_all rest (i + 1) (s + 1)
          (t + file_size (fs w2) (output_path_of photo_id)) w2
    | (Ret false, w2) => download_all rest (i + 1) s t w2
    | (Raise e, w2) => (Raise e, w2)
    end.
Proof.
  cbn [download_all]. unfold mbind at 1 2. unfold M_bind.
  simpl. destruct (download_and_optimize _ _ _ _) as [[[] |] w2];
    [| reflexivity | reflexivity].
  unfold_ops. unfold file_size.
  destruct (fs w2 !! _) as [c |] eqn:Hp; simpl; rewrite ?Hp; simpl.
  - reflexivity.
  - by rewrite Z.add_0_r.
Qed.

(** The loop: it returns, its counters are the number of successes and the
    sizes of their files, it prefixes every item in order, and the file
    store only grows, by files of the items. *)
Lemma download_all_run items :
  ∀ i success_count total_size w bs w',
    outcomes items i w = (bs, w') →
    ∃ evs,
      download_all items i success_count total_size w
        = (Ret (success_count + len (succeeded items bs),
                total_size
                + sum_Z ((λ it, file_size (fs w') (item_path it))
                           <$> succeeded items bs)), w')
      ∧ adds w w' evs
      ∧ List.filter is_progress evs
          = (λ k, Print (LProgress k (len IMAGES))) <$> seqZ i (len items)
      ∧ length bs = length items
      ∧ (∀ p c, fs w !! p = Some c → fs w' !! p = Some c)
      ∧ (∀ p, is_Some (fs w' !! p) →
              is_Some (fs w !! p) ∨ p ∈ item_path <$> items)
      ∧ (∀ it, it ∈ succeeded items bs → is_Some (fs w' !! item_path it))
      ∧ (∀ it, it ∈ items → is_Some (fs w !! item_path it) →
               it ∈ succeeded items bs).
Proof.
  induction items as [| [[photo_id width] description] rest IH];
    intros i s t w bs w' Hout.
  - injection Hout as <- <-. exists []. unfold adds, sum_Z, len. simpl.
    rewrite !Z.add_0_r, app_nil_r.
    split; [done |]. split; [done |]. split; [done |]. split; [done |].
    split; [done |]. split; [by left |]. split; intros it Hit; set_solver.
  - rewrite outcomes_cons in Hout. rewrite download_all_cons.
    destruct (download_and_optimize_returns photo_id width description
                (print (LProgress i (len IMAGES)) w).2)
      as (b & w2 & evs1 & Hdao & Hadd1 & Hprog1 & Hmono1 & Hnew1 & Hok1).
    rewrite Hdao in Hout.
    destruct (outcomes rest (i + 1) w2) as [bs' w3] eqn:Hrest.
    injection Hout as <- <-.
    rewrite Hdao. unfold adds in *. simpl in Hadd1, Hmono1, Hnew1.
    assert (seqZ i (len ((photo_id, width, description) :: rest))
            = i :: seqZ (i + 1) (len rest)) as Hseq.
    { rewrite seqZ_cons by (unfold len; simpl; lia).
      f_equal. f_equal; unfold len; simpl length; lia. }
    rewrite Hseq. clear Hseq.
    destruct b.
    + destruct (IH (i + 1) (s + 1)
                  (t + file_size (fs w2) (output_path_of photo_id))
                  w2 bs' w3 Hrest)
        as (evs2 & Heq & Hadd2 & Hprog2 & Hlen & Hmono2 & Hnew2 & Hsucc
            & Hpre).
      exists (Print (LProgress i (len IMAGES)) :: evs1 ++ evs2).
      rewrite Heq, succeeded_cons.
      destruct (Hok1 eq_refl) as [c Hc].
      split.
      { apply (f_equal (λ x, (Ret x, w3))). apply pair_equal_spec. split.
        - unfold len. simpl length. lia.
        - rewrite fmap_cons. unfold sum_Z at 2. simpl.
          fold (sum_Z ((λ it, file_size (fs w3) (item_path it))
                         <$> succeeded rest bs')).
          assert (file_size (fs w3)
                    (item_path (photo_id, width, description))
                  = file_size (fs w2) (output_path_of photo_id)) as ->.
          { unfold file_size, item_path, photo_id_of. simpl.
            by rewrite Hc, (Hmono2 _ _ Hc). }
          lia. }
      split. { rewrite Hadd2, Hadd1. by rewrite <- !app_assoc. }
      split. { simpl. by rewrite List.filter_app, Hprog1, Hprog2. }
      split. { simpl. by rewrite Hlen. }
      split. { intros p c' Hp. by apply Hmono2, Hmono1. }
      split.
      { intros p Hp. destruct (Hnew2 p Hp) as [Hp2 | Hp2].
        - destruct (Hnew1 p Hp2) as [? | ->]; [by left | right].
          rewrite fmap_cons. apply list_elem_of_here.
        - right. rewrite fmap_cons. by apply list_elem_of_further. }
      split.
      { intros it Hit. apply elem_of_cons in Hit as [-> | Hit].
        - exists c. by apply Hmono2.
        - by apply Hsucc. }
      intros it Hit Hex. apply elem_of_cons in Hit as [-> | Hit].
      * apply list_elem_of_here.
      * apply list_elem_of_further, Hpre; [done |].
        destruct Hex as [c' Hc']. exists c'. by apply Hmono1.
    + destruct (IH (i + 1) s t w2 bs' w3 Hrest)
        as (evs2 & Heq & Hadd2 & Hprog2 & Hlen & Hmono2 & Hnew2 & Hsucc
            & Hpre).
      exists (Print (LProgress i (len IMAGES)) :: evs1 ++ evs2).
      rewrite Heq, succeeded_cons.
      split; [done |].
      split. { rewrite Hadd2, Hadd1. by rewrite <- !app_assoc. }
      split. { simpl. by rewrite List.filter_app, Hprog1, Hprog2. }
      split. { simpl. by rewrite Hlen. }
      split. { intros p c' Hp. by apply Hmono2, Hmono1. }
      split.
      { intros p Hp. destruct (Hnew2 p Hp) as [Hp2 | Hp2].
        - destruct (Hnew1 p Hp2) as [? | ->]; [by left | right].
          rewrite fmap_cons. apply list_elem_of_here.
        - right. rewrite fmap_cons. by apply list_elem_of_further. }
      split; [done |].
      intros it Hit Hex. apply elem_of_cons in Hit as [-> | Hit].
      * exfalso. destruct Hex as [c Hc].
        unfold item_path, photo_id_of in Hc. simpl in Hc.
        pose proof (download_and_optimize_present http_get image_open
                      core_convert core_paste webp_encode photo_id width
                      description (print (LProgress i (len IMAGES)) w).2 c Hc)
          as Hskip.
        rewrite Hdao in Hskip. discriminate.
      * apply Hpre; [done |].
        destruct Hex as [c' Hc']. exists c'. by apply Hmono1.
Qed.

(** [main] from start to end, in terms of the loop it runs. *)
Lemma main_run w bs w1 :
  outcomes IMAGES 1 (started w) = (bs, w1) →
  let success_count := len (succeeded IMAGES bs) in
  let total_size :=
    sum_Z ((λ it, file_size (fs w1) (item_path it)) <$> succeeded IMAGES bs) in
  main w =
    (Ret (),
     World (fs w1)
       (trace w1 ++ summary success_count total_size
          ++ (if bool_decide (success_count = len IMAGES)
              then all_succeeded_message
              else partial_failure_warning (len IMAGES - success_count)))).
Proof.
  intros Hout.
  destruct (download_all_run IMAGES 1 0 0 (started w) bs w1 Hout)
    as (evs & Heq & _).
  rewrite !Z.add_0_l in Heq.
  unfold main. unfold_ops.
  cbn -[download_all IMAGES len succeeded sum_Z bool_decide].
  rewrite <- !app_assoc.
  cbn -[download_all IMAGES len succeeded sum_Z bool_decide].
  unfold started, prelude in Heq. rewrite Heq.
  cbn -[IMAGES len succeeded sum_Z bool_decide].
  unfold summary, all_succeeded_message, partial_failure_warning.
  case_bool_decide; cbn -[IMAGES len succeeded sum_Z];
    by rewrite <- !app_assoc.
Qed.

End Loop.

Lemma composite_white (src : list pixel) (n i : nat) (p : pixel) :
  length src = n → src !! i = Some p → c3 p = 0 →
  rgb_of <$>
    zip_with (λ o im_m, blend_pixel o im_m.1 im_m.2)
      (replicate n (Px 255 255 255 255))
      (zip src (map (λ p, Px (c3 p) 0 0 0) src)) !! i
  = Some white.
Proof.
  intros Hlen Hp Ha.
  assert (i < n)%nat as Hi by (rewrite <- Hlen; by eapply lookup_lt_Some).
  change (map (λ p, Px (c3 p) 0 0 0) src)
    with ((λ p, Px (c3 p) 0 0 0) <$> src).
  rewrite !lookup_zip_with, list_lookup_fmap, Hp, lookup_replicate_2 by done.
  simpl.
  f_equal. by apply blend_transparent.
Qed.

Section Normalization.
Variable core_convert : Image → string → outcome (list pixel).
Variable core_paste : Image → Image → option Image → outcome (list pixel).

#[local] Abbreviation normalize := (normalize core_convert core_paste).

(** C1 (as the code has it).  For a decoded image of mode RGBA, LA or P the
    normalisation creates an opaque white RGB canvas of the image's size
    and pastes the image on it under its own alpha (a palette image is
    expanded to RGBA first); the result is RGB, of the same size, and at
    every index where the source pixel is fully transparent its value is
    white (255,255,255).  This is the image handed to the encoder. *)
Theorem transparent_pixels_become_white img w i :
  mode img ∈ ["RGBA"; "LA"; "P"] →
  well_formed img →
  fully_transparent img i →
  ∃ img' w' evs,
    normalize img w = (Ret img', w')
    ∧ adds w w' evs
    ∧ ImageNew "RGB" (size img) (255, 255, 255) ∈ evs
    ∧ mode img' = "RGB"
    ∧ size img' = size img
    ∧ rgb_at img' i = Some white.
Proof.
  intros Hmode Hwf Htr. unfold fully_transparent, alpha_at in Htr.
  destruct (pixels img !! i) as [p |] eqn:Hp; [simpl in Htr | done].
  assert ((mode img = "RGBA" ∨ mode img = "LA") ∨ mode img = "P")
    as [Hm | Hm] by (set_unfold; naive_solver).
  - rewrite normalize_alpha by done.
    eexists _, _, _. split; [reflexivity |]. split; [reflexivity |].
    split; [set_solver |]. split; [done |]. split; [done |].
    unfold rgb_at. simpl. apply (composite_white _ _ _ p); [done | done |].
    destruct Hm as [Hm | Hm]; rewrite Hm in Htr; by injection Htr.
  - rewrite normalize_palette by done.
    eexists _, _, _. split; [reflexivity |]. split; [reflexivity |].
    split; [set_solver |]. split; [done |]. split; [done |].
    unfold rgb_at. simpl.
    apply (composite_white _ _ _ (palette_lookup (palette img) (c0 p))).
    + by rewrite length_map.
    + change (map (λ p, palette_lookup (palette img) (c0 p)) (pixels img))
        with ((λ p, palette_lookup (palette img) (c0 p)) <$> pixels img).
      by rewrite list_lookup_fmap, Hp.
    + rewrite Hm in Htr. by injection Htr.
Qed.

(** C9 (as the code has it).  The paste without a mask is unreachable:
    whenever the compositing branch is entered (mode RGBA, LA or P), a
    palette image is converted to RGBA, every paste that is executed has
    the alpha mask and pastes an image of mode RGBA or LA, and when the
    image data loads the masked paste is executed. *)
Theorem unmasked_paste_unreachable img w :
  mode img ∈ ["RGBA"; "LA"; "P"] →
  ∃ r w' evs,
    normalize img w = (r, w')
    ∧ adds w w' evs
    ∧ (mode img = "P" → ImageConvert "P" "RGBA" ∈ evs)
    ∧ Forall (λ e, match e with
                   | ImagePaste m masked =>
                       masked = true ∧ (m = "RGBA" ∨ m = "LA")
                   | _ => True
                   end) evs
    ∧ (well_formed img →
         ∃ m, (m = "RGBA" ∨ m = "LA") ∧ ImagePaste m true ∈ evs).
Proof.
  intros Hmode.
  destruct (decide (well_formed img)) as [Hwf | Hwf].
  - assert ((mode img = "RGBA" ∨ mode img = "LA") ∨ mode img = "P")
      as [Hm | Hm] by (set_unfold; naive_solver).
    + rewrite normalize_alpha by done.
      eexists _, _, _. split; [reflexivity |]. split; [reflexivity |].
      split; [intros HP; destruct Hm as [Hm | Hm]; congruence |].
      split; [| intros _; exists (mode img); split; [done | set_solver]].
      repeat first [apply Forall_nil_2 | apply Forall_cons_2]; simpl;
        try exact I.
      by split.
    + rewrite normalize_palette by done.
      eexists _, _, _. split; [reflexivity |]. split; [reflexivity |].
      split; [intros _; set_solver |].
      split; [| intros _; exists "RGBA"; split; [by left | set_solver]].
      repeat first [apply Forall_nil_2 | apply Forall_cons_2]; simpl;
        try exact I.
      split; [done | by left].
  - rewrite normalize_unloadable by done.
    eexists _, _, _. split; [reflexivity |]. split; [reflexivity |].
    split; [intros HP; rewrite decide_True by done; set_solver |].
    split; [| by intros ?].
    repeat first [apply Forall_nil_2 | apply Forall_cons_2]; simpl;
      try exact I.
    by case_decide.
Qed.

End Normalization.

Lemma succeeded_length items : ∀ bs,
  (length (succeeded items bs) ≤ length items)%nat.
Proof.
  induction items as [| it items IH]; intros [| b bs]; simpl; try lia.
  rewrite succeeded_cons. specialize (IH bs). destruct b; simpl; lia.
Qed.

Lemma succeeded_all items : ∀ bs,
  length bs = length items →
  len (succeeded items bs) = len items → succeeded items bs = items.
Proof.
  unfold len. induction items as [| it items IH]; intros [| b bs] Hlen Hall;
    try done.
  rewrite succeeded_cons in *. simpl in Hlen. destruct b.
  - f_equal. apply IH; [lia |]. simpl in Hall. lia.
  - pose proof (succeeded_length items bs). simpl in Hall. lia.
Qed.

Lemma expected_paths_distinct : NoDup expected_paths.
Proof. apply (bool_decide_unpack _). by vm_compute. Qed.

Lemma expected_paths_in_output_dir path :
  path ∈ expected_paths → String.prefix (OUTPUT_DIR +:+ "/") path = true.
Proof.
  revert path. apply Forall_forall. apply (bool_decide_unpack _). by vm_compute.
Qed.

Section Claims.
Variable http_get : string → gmap string string → Z → outcome Response.
Variable image_open : list byte → outcome Image.
Variable core_convert : Image → string → outcome (list pixel).
Variable core_paste : Image → Image → option Image → outcome (list pixel).
Variable webp_encode : Image → Z → Z → bool → outcome (list byte).

#[local] Abbreviation download_and_optimize :=
  (download_and_optimize http_get image_open core_convert core_paste
     webp_encode).
#[local] Abbreviation download_all :=
  (download_all http_get image_open core_convert core_paste webp_encode).
#[local] Abbreviation outcomes :=
  (outcomes http_get image_open core_convert core_paste webp_encode).
#[local] Abbreviation main :=
  (main http_get image_open core_convert core_paste webp_encode).
#[local] Abbreviation run_script :=
  (run_script http_get image_open core_convert core_paste webp_encode).

(** C2.  When the output file of an item is already at
    [{OUTPUT_DIR}/{photo_id}.webp], the per-item operation returns True,
    leaves the file store as it was, and does nothing but print the skip
    line: no request is sent and no imaging call is made. *)
Theorem existing_artifact_is_skipped photo_id width description w data :
  fs w !! output_path_of photo_id = Some data →
  ∃ w' evs,
    download_and_optimize photo_id width description w = (Ret true, w')
    ∧ adds w w' evs
    ∧ fs w' = fs w
    ∧ evs = [Print (LSkip photo_id (len data))]
    ∧ List.filter is_request evs = []
    ∧ List.filter is_imaging evs = [].
Proof.
  intros Hp.
  rewrite (download_and_optimize_present _ _ _ _ _ _ _ _ _ _ Hp).
  by eexists _, _.
Qed.

(** C3 (as the code has it).  When the file is not there yet and the fetch
    answers with an error status, 4xx or 5xx, the per-item operation returns
    False, calls no encoder and leaves the file store unchanged, and the
    loop goes on with the remaining items with its counters as they
    were. *)
Theorem error_status_fails_item photo_id width description w r :
  fs w !! output_path_of photo_id = None →
  http_get (url_of photo_id width) request_headers 30 = Ret r →
  400 ≤ status_code r < 600 →
  ∃ w' evs,
    download_and_optimize photo_id width description w = (Ret false, w')
    ∧ adds w w' evs
    ∧ fs w' = fs w
    ∧ List.filter is_save evs = []
    ∧ ∀ rest i success_count total_size, ∃ w'',
        download_all ((photo_id, width, description) :: rest) i
          success_count total_size w
        = download_all rest (i + 1) success_count total_size w''
        ∧ fs w'' = fs w.
Proof.
  intros Hp Hget Hst.
  destruct (download_and_optimize_fresh http_get image_open core_convert
              core_paste webp_encode photo_id width description w Hp)
    as (b & w' & evs & Heq & Hadds & _ & _ & Hsave & _ & _ & Herr & _).
  destruct (Herr r Hget Hst) as (-> & Hfs & Hnosave).
  exists w', evs. split; [done |]. split; [done |]. split; [done |].
  split; [done |].
  intros rest i s t. rewrite download_all_cons.
  destruct (download_and_optimize_fresh http_get image_open core_convert
              core_paste webp_encode photo_id width description
              (print (LProgress i (len IMAGES)) w).2 Hp)
    as (b & w'' & evs' & Heq' & _ & _ & _ & _ & _ & _ & Herr' & _).
  destruct (Herr' r Hget Hst) as (-> & Hfs' & _).
  exists w''. by rewrite Heq'.
Qed.

(** C4.  For an item whose file was not there and whose operation returned
    True, whatever image the decoder produced (any mode), the encoder was
    called exactly once, on an image of mode RGB, and the file written at
    the item's path is what the encoder returned for that image. *)
Theorem encoder_input_is_RGB photo_id width description w w' :
  fs w !! output_path_of photo_id = None →
  download_and_optimize photo_id width description w = (Ret true, w') →
  ∃ evs img data,
    adds w w' evs
    ∧ List.filter is_save evs
        = [ImageSave (output_path_of photo_id) img "WEBP" 85 6 false]
    ∧ mode img = "RGB"
    ∧ webp_encode img 85 6 false = Ret data
    ∧ fs w' !! output_path_of photo_id = Some data.
Proof.
  intros Hp Hrun.
  destruct (download_and_optimize_fresh http_get image_open core_convert
              core_paste webp_encode photo_id width description w Hp)
    as (b & w1 & evs & Heq & Hadds & _ & _ & _ & _ & Htrue & _).
  rewrite Hrun in Heq. injection Heq as <- <-.
  destruct (Htrue eq_refl) as (img & data & Hsave & Hmode & Henc & Hfs).
  exists evs, img, data. repeat split; try done.
  rewrite Hfs. apply lookup_insert_eq.
Qed.

(** C5.  Every call of the encoder that the per-item operation makes asks
    for the WEBP format at the item's path with quality 85 (the value of
    WEBP_QUALITY), method 6 and lossless False. *)
Theorem encoder_parameters_fixed photo_id width description w :
  WEBP_QUALITY = 85
  ∧ ∃ b w' evs,
      download_and_optimize photo_id width description w = (Ret b, w')
      ∧ adds w w' evs
      ∧ Forall (λ e, match e with
                     | ImageSave path _ format quality method lossless =>
                         path = output_path_of photo_id ∧ format = "WEBP"
                         ∧ quality = 85 ∧ method = 6 ∧ lossless = false
                     | _ => True
                     end) evs.
Proof.
  split; [done |].
  destruct (fs w !! output_path_of photo_id) as [data |] eqn:Hp.
  - rewrite (download_and_optimize_present _ _ _ _ _ _ _ _ _ _ Hp).
    eexists _, _, _. split; [done |]. split; [done |]. by repeat constructor.
  - destruct (download_and_optimize_fresh http_get image_open core_convert
                core_paste webp_encode photo_id width description w Hp)
      as (b & w' & evs & Heq & Hadds & _ & _ & Hsave & _).
    exists b, w', evs. split; [done |]. split; [done |].
    apply Forall_forall. intros e He.
    destruct e; try done.
    destruct (Hsave _ He eq_refl) as (img' & [= -> -> -> -> -> ->] & _).
    done.
Qed.

(** C6.  An item whose file is not there is fetched with exactly one
    request: to [https://images.unsplash.com/{photo_id}?w={width}&q=80]
    with the width in decimal, with the two headers User-Agent and Referer
    and nothing else, and with a timeout of 30; no second request
    follows. *)
Theorem one_request_per_item photo_id width description w :
  fs w !! output_path_of photo_id = None →
  ∃ b w' evs,
    download_and_optimize photo_id width description w = (Ret b, w')
    ∧ adds w w' evs
    ∧ List.filter is_request evs
        = [HttpGet ("https://images.unsplash.com/" +:+ photo_id +:+ "?w="
                      +:+ pretty width +:+ "&q=80")
                   request_headers 30]
    ∧ dom request_headers = {["User-Agent"; "Referer"]}
    ∧ base.size request_headers = 2%nat.
Proof.
  intros Hp.
  destruct (download_and_optimize_fresh http_get image_open core_convert
              core_paste webp_encode photo_id width description w Hp)
    as (b & w' & evs & Heq & Hadds & Hreq & _).
  exists b, w', evs. split; [done |]. split; [done |]. split; [done |].
  unfold request_headers. split.
  - rewrite !dom_insert_L, dom_empty_L. set_solver.
  - rewrite !map_size_insert_None, map_size_empty; [done | done |].
    by rewrite lookup_insert_ne.
Qed.

(** On a host whose console accepts every line and whose output directory
    can be created: whatever the network, the decoder, the conversions and
    the encoder answer for each item, the per-item operation returns a
    boolean, and [main] prefixes and processes all 29 items in order and
    returns. *)
Lemma cooperative_run_returns w :
  (∀ photo_id width description w0,
     ∃ b w0',
       download_and_optimize photo_id width description w0 = (Ret b, w0')
       ∧ (fs w0 !! output_path_of photo_id = None → b = true →
            ∃ r img0 img data,
              http_get (url_of photo_id width) request_headers 30 = Ret r
              ∧ ¬ 400 ≤ status_code r < 600
              ∧ image_open (content r) = Ret img0
              ∧ webp_encode img 85 6 false = Ret data))
  ∧ ∃ w' evs,
      main w = (Ret (), w')
      ∧ run_script w = (0, w')
      ∧ adds w w' evs
      ∧ List.filter is_progress evs
          = (λ k, Print (LProgress k 29)) <$> seqZ 1 29.
Proof.
  split.
  - intros photo_id width description w0.
    destruct (fs w0 !! output_path_of photo_id) as [data |] eqn:Hp.
    + rewrite (download_and_optimize_present _ _ _ _ _ _ _ _ _ _ Hp).
      eexists _, _. split; [done |]. by intros [=].
    + destruct (download_and_optimize_fresh http_get image_open core_convert
                  core_paste webp_encode photo_id width description w0 Hp)
        as (b & w0' & evs & Heq & _ & _ & _ & _ & _ & Htrue & _ & Hpre).
      exists b, w0'. split; [done |]. intros _ Hb.
      destruct (Htrue Hb) as (img & data & _ & _ & Henc & _).
      destruct (Hpre Hb) as (r & img0 & Hget & Hst & Hopen).
      by exists r, img0, img, data.
  - destruct (outcomes IMAGES 1 (started w)) as [bs w1] eqn:Hout.
    destruct (download_all_run http_get image_open core_convert core_paste
                webp_encode IMAGES 1 0 0 (started w) bs w1 Hout)
      as (evs & _ & Hadds & Hprog & _).
    pose proof (main_run http_get image_open core_convert core_paste
                  webp_encode w bs w1 Hout) as Hmain.
    cbv zeta in Hmain.
    eexists _, _. split; [exact Hmain |].
    split; [unfold run_script; by rewrite Hmain |].
    unfold adds, started in *. simpl in *.
    split; [rewrite Hadds, <- !app_assoc; reflexivity |].
    rewrite !List.filter_app, Hprog.
    case_bool_decide; by rewrite app_nil_r.
Qed.

(** C7 (as the code has it).  The item list has 29 entries; [main] returns
    after a summary that reports the number of items whose operation
    returned success, out of 29; it closes with the success message when
    that number is 29 and with the partial-failure warning otherwise.  When
    all 29 succeeded, the 29 paths [{OUTPUT_DIR}/{photo_id}.webp] are
    distinct and each holds a file, and the store holds these and the files
    it held before the run: the output directory holds exactly these 29
    when it held no other file before. *)
Theorem summary_counts_successes w :
  length IMAGES = 29%nat
  ∧ ∃ w' total closing,
      let bs := (outcomes IMAGES 1 (started w)).1 in
      let w1 := (outcomes IMAGES 1 (started w)).2 in
      let success_count := len (succeeded IMAGES bs) in
      main w = (Ret (), w')
      ∧ length bs = 29%nat
      ∧ trace w' = trace w1 ++ summary success_count total ++ closing
      ∧ Print (LCompleted success_count 29) ∈ summary success_count total
      ∧ (success_count = 29 → closing = all_succeeded_message)
      ∧ (success_count ≠ 29 →
           closing = partial_failure_warning (29 - success_count))
      ∧ (∀ failed, all_succeeded_message ≠ partial_failure_warning failed)
      ∧ (success_count = 29 →
           NoDup expected_paths
           ∧ length expected_paths = 29%nat
           ∧ (∀ path, path ∈ expected_paths → is_Some (fs w' !! path))
           ∧ dom (fs w') = dom (fs w) ∪ list_to_set expected_paths
           ∧ (files_in OUTPUT_DIR (fs w) ⊆ list_to_set expected_paths →
                files_in OUTPUT_DIR (fs w') = list_to_set expected_paths
                ∧ base.size (files_in OUTPUT_DIR (fs w')) = 29%nat)).
Proof.
  split; [done |].
  destruct (outcomes IMAGES 1 (started w)) as [bs w1] eqn:Hout.
  destruct (download_all_run http_get image_open core_convert core_paste
              webp_encode IMAGES 1 0 0 (started w) bs w1 Hout)
    as (evs & _ & _ & _ & Hlen & Hmono & Hnew & Hsucc & _).
  pose proof (main_run http_get image_open core_convert core_paste
                webp_encode w bs w1 Hout) as Hmain.
  cbv zeta in Hmain. unfold started in Hmono, Hnew. cbn [fs] in Hmono, Hnew.
  eexists _, _, _. cbv zeta. simpl fst. simpl snd.
  split; [exact Hmain |]. split; [done |]. simpl fs. simpl trace.
  split; [reflexivity |].
  split; [apply list_elem_of_further, list_elem_of_here |].
  change (len IMAGES) with 29.
  split; [intros Hc; by rewrite bool_decide_eq_true_2 |].
  split; [intros Hc; by rewrite bool_decide_eq_false_2 |].
  split; [done |].
  intros Hall.
  assert (succeeded IMAGES bs = IMAGES) as Hsame by (by apply succeeded_all).
  rewrite Hsame in Hsucc.
  assert (∀ path, path ∈ expected_paths → is_Some (fs w1 !! path)) as Hthere.
  { intros path Hin. apply list_elem_of_fmap in Hin as (it & -> & Hit).
    by apply Hsucc. }
  assert (dom (fs w1) = dom (fs w) ∪ list_to_set expected_paths) as Hdom.
  { apply set_eq. intros path.
    rewrite elem_of_union, !elem_of_dom, elem_of_list_to_set. split.
    - apply Hnew.
    - intros [[c Hc] | Hin]; [exists c; by apply Hmono | by apply Hthere]. }
  split; [apply expected_paths_distinct |]. split; [done |].
  split; [done |]. split; [done |].
  intros Hclean.
  assert (files_in OUTPUT_DIR (fs w1) = list_to_set expected_paths) as Hfiles.
  { apply set_eq. intros path. unfold files_in in *.
    rewrite elem_of_filter, Hdom, elem_of_union, elem_of_list_to_set. split.
    - intros [Hpre [Hin | Hin]]; [| done].
      assert (path ∈ (list_to_set expected_paths : gset string)) as Hx
        by (apply Hclean, elem_of_filter; by split).
      by apply elem_of_list_to_set in Hx.
    - intros Hin. split; [by apply expected_paths_in_output_dir | by right]. }
  split; [done |].
  rewrite Hfiles, size_list_to_set by apply expected_paths_distinct. done.
Qed.

(** C10.  The total size printed in the summary is the sum, over the items
    whose operation returned success, of the sizes of their output files in
    the store; each of these files is there; and an item whose file was
    there before the run, which is skipped, is among them with the size its
    file had. *)
Theorem total_size_counts_skipped w :
  ∃ w' total closing,
    let bs := (outcomes IMAGES 1 (started w)).1 in
    let w1 := (outcomes IMAGES 1 (started w)).2 in
    main w = (Ret (), w')
    ∧ trace w' = trace w1 ++ summary (len (succeeded IMAGES bs)) total
                   ++ closing
    ∧ Print (LTotalSize total) ∈ summary (len (succeeded IMAGES bs)) total
    ∧ total = sum_Z ((λ it, file_size (fs w') (item_path it))
                       <$> succeeded IMAGES bs)
    ∧ Forall (λ it, is_Some (fs w' !! item_path it)) (succeeded IMAGES bs)
    ∧ Forall (λ it, ∀ data, fs w !! item_path it = Some data →
                      it ∈ succeeded IMAGES bs
                      ∧ file_size (fs w') (item_path it) = len data) IMAGES.
Proof.
  destruct (outcomes IMAGES 1 (started w)) as [bs w1] eqn:Hout.
  destruct (download_all_run http_get image_open core_convert core_paste
              webp_encode IMAGES 1 0 0 (started w) bs w1 Hout)
    as (evs & _ & _ & _ & Hlen & Hmono & Hnew & Hsucc & Hpre).
  pose proof (main_run http_get image_open core_convert core_paste
                webp_encode w bs w1 Hout) as Hmain.
  cbv zeta in Hmain. unfold started in Hmono, Hpre. cbn [fs] in Hmono, Hpre.
  eexists _, _, _. cbv zeta. simpl fst. simpl snd.
  split; [exact Hmain |]. simpl fs. simpl trace.
  split; [reflexivity |].
  split; [do 2 apply list_elem_of_further; apply list_elem_of_here |].
  split; [reflexivity |].
  split; [by apply Forall_forall |].
  apply Forall_forall. intros it Hit data Hdata.
  split; [apply Hpre; [done | by exists data] |].
  unfold file_size. by rewrite (Hmono _ _ Hdata).
Qed.

End Claims.

Section HostClaims.
Variable http_get : string → gmap string string → Z → outcome Response.
Variable image_open : list byte → outcome Image.
Variable core_convert : Image → string → outcome (list pixel).
Variable core_paste : Image → Image → option Image → outcome (list pixel).
Variable webp_encode : Image → Z → Z → bool → outcome (list byte).

(** On a cooperative host the script on any host is the script above. *)
Lemma download_and_optimize_on_cooperative :
  download_and_optimize_on (Host true None) http_get image_open core_convert
    core_paste webp_encode
  = download_and_optimize http_get image_open core_convert core_paste
      webp_encode.
Proof. reflexivity. Qed.

Lemma download_all_on_cooperative :
  download_all_on (Host true None) http_get image_open core_convert
    core_paste webp_encode
  = download_all http_get image_open core_convert core_paste webp_encode.
Proof. reflexivity. Qed.

Lemma main_on_cooperative :
  main_on (Host true None) http_get image_open core_convert core_paste
    webp_encode
  = main http_get image_open core_convert core_paste webp_encode.
Proof.
  unfold main_on, main. rewrite download_all_on_cooperative.
  change (print_on (Host true None)) with print.
  change (os_makedirs_on (Host true None) OUTPUT_DIR true)
    with (os_makedirs OUTPUT_DIR true).
  reflexivity.
Qed.


End HostClaims.

(** ** The statements at concrete inputs *)

Lemma transparent_pixels_become_white_witness :
  mode rgba_sample ∈ ["RGBA"; "LA"; "P"]
  ∧ well_formed rgba_sample
  ∧ fully_transparent rgba_sample 0
  ∧ ∃ img' w' evs,
      normalize no_core_convert no_core_paste rgba_sample empty_world
        = (Ret img', w')
      ∧ adds empty_world w' evs
      ∧ ImageNew "RGB" (size rgba_sample) (255, 255, 255) ∈ evs
      ∧ mode img' = "RGB"
      ∧ size img' = size rgba_sample
      ∧ rgb_at img' 0 = Some white.
Proof.
  assert (mode rgba_sample ∈ ["RGBA"; "LA"; "P"]) as Hm
    by (apply (bool_decide_unpack _); vm_compute; exact I).
  assert (well_formed rgba_sample) as Hwf by reflexivity.
  assert (fully_transparent rgba_sample 0) as Htr by reflexivity.
  split; [exact Hm |]. split; [exact Hwf |]. split; [exact Htr |].
  exact (transparent_pixels_become_white no_core_convert no_core_paste
           rgba_sample empty_world 0%nat Hm Hwf Htr).
Defined.

(** C1 as stated fails: a palette-with-alpha image has an alpha channel, yet
    it is converted without compositing and its fully transparent pixel
    keeps the colour of its palette entry, black here, instead of white. *)
Lemma palette_alpha_keeps_colour :
  has_alpha_channel (mode pa_sample) = true
  ∧ well_formed pa_sample
  ∧ fully_transparent pa_sample 0
  ∧ ∃ img',
      normalize no_core_convert no_core_paste pa_sample empty_world
        = (Ret img', World ∅ [ImageConvert "PA" "RGB"])
      ∧ rgb_at img' 0 = Some (0, 0, 0)
      ∧ rgb_at img' 0 ≠ Some white.
Proof.
  split; [reflexivity |]. split; [reflexivity |]. split; [reflexivity |].
  eexists. split; [by vm_compute |]. split; [reflexivity |].
  by intros [=].
Qed.

Lemma unmasked_paste_unreachable_witness :
  mode palette_sample ∈ ["RGBA"; "LA"; "P"]
  ∧ well_formed palette_sample
  ∧ ∃ r w' evs,
      normalize no_core_convert no_core_paste palette_sample empty_world
        = (r, w')
      ∧ adds empty_world w' evs
      ∧ ImageConvert "P" "RGBA" ∈ evs
      ∧ ∃ m, (m = "RGBA" ∨ m = "LA") ∧ ImagePaste m true ∈ evs.
Proof.
  assert (mode palette_sample ∈ ["RGBA"; "LA"; "P"]) as Hm
    by (apply (bool_decide_unpack _); vm_compute; exact I).
  assert (well_formed palette_sample) as Hwf by reflexivity.
  split; [exact Hm |]. split; [exact Hwf |].
  destruct (unmasked_paste_unreachable no_core_convert no_core_paste
              palette_sample empty_world Hm)
    as (r & w' & evs & Heq & Hadds & Hconv & _ & Hpaste).
  exists r, w', evs. split; [exact Heq |]. split; [exact Hadds |].
  split; [exact (Hconv eq_refl) | exact (Hpaste Hwf)].
Defined.

(** C9 as stated fails: a palette image whose data cannot be loaded enters
    the compositing branch, its conversion to RGBA raises, and no paste,
    masked or not, is executed. *)
Lemma truncated_palette_is_never_pasted :
  mode truncated_palette_sample ∈ ["RGBA"; "LA"; "P"]
  ∧ normalize no_core_convert no_core_paste truncated_palette_sample
      empty_world
    = (Raise (OSError "image file is truncated"),
       World ∅ [ImageNew "RGB" (1, 1)%nat (255, 255, 255);
                ImageConvert "P" "RGBA"])
  ∧ ¬ ∃ m, ImagePaste m true
           ∈ [ImageNew "RGB" (1, 1)%nat (255, 255, 255);
              ImageConvert "P" "RGBA"].
Proof.
  split; [apply (bool_decide_unpack _); vm_compute; exact I |].
  split; [by vm_compute |].
  intros [m Hin]. set_unfold. naive_solver.
Qed.

Lemma existing_artifact_is_skipped_witness :
  fs one_file_world !! output_path_of "photo-1" = Some [x52; x49]
  ∧ ∃ w' evs,
      download_and_optimize (net_status 200 [x01]) (decode_as rgba_sample)
        no_core_convert no_core_paste encode_riff "photo-1" 1920 "Sample"
        one_file_world = (Ret true, w')
      ∧ adds one_file_world w' evs
      ∧ fs w' = fs one_file_world
      ∧ evs = [Print (LSkip "photo-1" (len [x52; x49]))]
      ∧ List.filter is_request evs = []
      ∧ List.filter is_imaging evs = [].
Proof.
  assert (fs one_file_world !! output_path_of "photo-1" = Some [x52; x49])
    as Hp by (vm_compute; reflexivity).
  split; [exact Hp |].
  exact (existing_artifact_is_skipped (net_status 200 [x01])
           (decode_as rgba_sample) no_core_convert no_core_paste encode_riff
           "photo-1" 1920 "Sample" one_file_world [x52; x49] Hp).
Defined.

Lemma error_status_fails_item_witness :
  fs empty_world !! output_path_of "photo-1" = None
  ∧ net_status 404 [] (url_of "photo-1" 1920) request_headers 30
      = Ret (mkResponse 404 [])
  ∧ 400 ≤ status_code (mkResponse 404 []) < 600
  ∧ ∃ w' evs,
      download_and_optimize (net_status 404 []) (decode_as rgba_sample)
        no_core_convert no_core_paste encode_riff "photo-1" 1920 "Sample"
        empty_world = (Ret false, w')
      ∧ adds empty_world w' evs
      ∧ fs w' = fs empty_world
      ∧ List.filter is_save evs = []
      ∧ ∀ rest i success_count total_size, ∃ w'',
          download_all (net_status 404 []) (decode_as rgba_sample)
            no_core_convert no_core_paste encode_riff
            (("photo-1", 1920, "Sample") :: rest) i success_count total_size
            empty_world
          = download_all (net_status 404 []) (decode_as rgba_sample)
              no_core_convert no_core_paste encode_riff rest (i + 1)
              success_count total_size w''
          ∧ fs w'' = fs empty_world.
Proof.
  assert (fs empty_world !! output_path_of "photo-1" = None) as Hp
    by reflexivity.
  assert (400 ≤ status_code (mkResponse 404 []) < 600) as Hst
    by (simpl; lia).
  split; [exact Hp |]. split; [reflexivity |]. split; [exact Hst |].
  exact (error_status_fails_item (net_status 404 []) (decode_as rgba_sample)
           no_core_convert no_core_paste encode_riff "photo-1" 1920 "Sample"
           empty_world (mkResponse 404 []) Hp eq_refl Hst).
Defined.

(** C3 as stated fails: 300 is not a success status, yet it does not make
    [raise_for_status] raise; when its body decodes, the item is processed,
    the operation returns True and the output file is created. *)
Lemma redirect_status_is_processed :
  ¬ success_status 300
  ∧ fs empty_world !! output_path_of "photo-1" = None
  ∧ net_status 300 [x01] (url_of "photo-1" 1920) request_headers 30
      = Ret (mkResponse 300 [x01])
  ∧ (download_and_optimize (net_status 300 [x01]) (decode_as rgba_sample)
       no_core_convert no_core_paste encode_riff "photo-1" 1920 "Sample"
       empty_world).1 = Ret true
  ∧ fs (download_and_optimize (net_status 300 [x01]) (decode_as rgba_sample)
          no_core_convert no_core_paste encode_riff "photo-1" 1920 "Sample"
          empty_world).2 !! output_path_of "photo-1"
    = Some [x52; x49; x46; x46].
Proof.
  split; [unfold success_status; lia |]. split; [reflexivity |].
  split; [reflexivity |]. split; by vm_compute.
Qed.

Lemma encoder_input_is_RGB_witness :
  fs empty_world !! output_path_of "photo-1" = None
  ∧ download_and_optimize (net_status 200 [x01]) (decode_as rgba_sample)
      no_core_convert no_core_paste encode_riff "photo-1" 1920 "Sample"
      empty_world = (Ret true, fetched_world)
  ∧ ∃ evs img data,
      adds empty_world fetched_world evs
      ∧ List.filter is_save evs
          = [ImageSave (output_path_of "photo-1") img "WEBP" 85 6 false]
      ∧ mode img = "RGB"
      ∧ encode_riff img 85 6 false = Ret data
      ∧ fs fetched_world !! output_path_of "photo-1" = Some data.
Proof.
  assert (fs empty_world !! output_path_of "photo-1" = None) as Hp
    by reflexivity.
  assert (download_and_optimize (net_status 200 [x01])
            (decode_as rgba_sample) no_core_convert no_core_paste encode_riff
            "photo-1" 1920 "Sample" empty_world = (Ret true, fetched_world))
    as Hrun by (vm_compute; reflexivity).
  split; [exact Hp |]. split; [exact Hrun |].
  exact (encoder_input_is_RGB (net_status 200 [x01]) (decode_as rgba_sample)
           no_core_convert no_core_paste encode_riff "photo-1" 1920 "Sample"
           empty_world fetched_world Hp Hrun).
Defined.

Lemma one_request_per_item_witness :
  fs empty_world !! output_path_of "photo-1503387762-592deb58ef4e" = None
  ∧ url_of "photo-1503387762-592deb58ef4e" 1920
    = "https://images.unsplash.com/photo-1503387762-592deb58ef4e?w=1920&q=80"
  ∧ ∃ b w' evs,
      download_and_optimize net_down (decode_as rgba_sample) no_core_convert
        no_core_paste encode_riff "photo-1503387762-592deb58ef4e" 1920
        "Architect reviewing building plans" empty_world = (Ret b, w')
      ∧ adds empty_world w' evs
      ∧ List.filter is_request evs
          = [HttpGet ("https://images.unsplash.com/"
                        +:+ "photo-1503387762-592deb58ef4e" +:+ "?w="
                        +:+ pretty 1920 +:+ "&q=80")
                     request_headers 30]
      ∧ dom request_headers = {["User-Agent"; "Referer"]}
      ∧ base.size request_headers = 2%nat.
Proof.
  assert (fs empty_world !! output_path_of "photo-1503387762-592deb58ef4e"
          = None) as Hp by reflexivity.
  split; [exact Hp |]. split; [vm_compute; reflexivity |].
  exact (one_request_per_item net_down (decode_as rgba_sample)
           no_core_convert no_core_paste encode_riff
           "photo-1503387762-592deb58ef4e" 1920
           "Architect reviewing building plans" empty_world Hp).
Defined.

Lemma summary_counts_successes_witness :
  len (succeeded IMAGES
         (outcomes (net_status 200 [x01]) (decode_as rgba_sample)
            no_core_convert no_core_paste encode_riff IMAGES 1
            (started empty_world)).1) = 29
  ∧ files_in OUTPUT_DIR (fs empty_world) ⊆ list_to_set expected_paths
  ∧ ∃ w',
      main (net_status 200 [x01]) (decode_as rgba_sample) no_core_convert
        no_core_paste encode_riff empty_world = (Ret (), w')
      ∧ files_in OUTPUT_DIR (fs w') = list_to_set expected_paths
      ∧ base.size (files_in OUTPUT_DIR (fs w')) = 29%nat.
Proof.
  assert (len (succeeded IMAGES
                 (outcomes (net_status 200 [x01]) (decode_as rgba_sample)
                    no_core_convert no_core_paste encode_riff IMAGES 1
                    (started empty_world)).1) = 29) as Hall
    by (vm_compute; reflexivity).
  assert (files_in OUTPUT_DIR (fs empty_world)
            ⊆ (list_to_set expected_paths : gset string)) as Hclean.
  { intros path Hin. apply elem_of_filter in Hin as [_ Hin].
    simpl in Hin. rewrite dom_empty_L in Hin.
    destruct (not_elem_of_empty (C:=gset string) path Hin). }
  split; [exact Hall |]. split; [exact Hclean |].
  destruct (summary_counts_successes (net_status 200 [x01])
              (decode_as rgba_sample) no_core_convert no_core_paste
              encode_riff empty_world)
    as (_ & w' & total & closing & Hmain & _ & _ & _ & _ & _ & _ & Hfiles).
  destruct (Hfiles Hall) as (_ & _ & _ & _ & Hdir).
  exists w'. split; [exact Hmain |]. exact (Hdir Hclean).
Defined.



(** C7 as stated fails: with the 29 expected files and one more file already
    in the output directory, all 29 items succeed and the directory holds 30
    files, not 29. *)
Lemma stray_file_makes_thirty :
  len (succeeded IMAGES
         (outcomes net_down (decode_as rgba_sample) no_core_convert
            no_core_paste encode_riff IMAGES 1 (started crowded_world)).1)
    = 29
  ∧ (main net_down (decode_as rgba_sample) no_core_convert no_core_paste
       encode_riff crowded_world).1 = Ret ()
  ∧ base.size
      (files_in OUTPUT_DIR
         (fs (main net_down (decode_as rgba_sample) no_core_convert
                no_core_paste encode_riff crowded_world).2))
    = 30%nat.
Proof.
  split; [by vm_compute |]. split; [by vm_compute |]. by vm_compute.
Qed.

(** * Further properties of the script *)

Lemma slice_to_length n s : (String.length (slice_to n s) ≤ n)%nat.
Proof.
  unfold slice_to. revert s. induction n as [| n IH]; intros [| c s]; simpl;
    try lia.
  specialize (IH s). lia.
Qed.

Section PerItemPaths.
Variable http_get : string → gmap string string → Z → outcome Response.
Variable image_open : list byte → outcome Image.
Variable core_convert : Image → string → outcome (list pixel).
Variable core_paste : Image → Image → option Image → outcome (list pixel).
Variable webp_encode : Image → Z → Z → bool → outcome (list byte).

#[local] Abbreviation download_and_optimize :=
  (download_and_optimize http_get image_open core_convert core_paste
     webp_encode).

(** X1.  When the request itself raises (no connection, timeout), the
    operation returns False after exactly three events: the progress text,
    the one request and the error line; the file store is unchanged and the
    printed message has at most 40 characters. *)
Theorem fetch_exception_fails_item photo_id width description w e :
  fs w !! output_path_of photo_id = None →
  http_get (url_of photo_id width) request_headers 30 = Raise e →
  download_and_optimize photo_id width description w
    = (Ret false,
       World (fs w)
         (trace w ++ [Print (LDownloading (slice_to 40 description));
                      HttpGet (url_of photo_id width) request_headers 30;
                      Print (LError (slice_to 40 (str e)))]))
  ∧ (String.length (slice_to 40 (str e)) ≤ 40)%nat.
Proof.
  intros Hp Hget. split; [| apply slice_to_length].
  unfold download_and_optimize. unfold_ops. rewrite Hp. simpl.
  rewrite Hget. simpl. by rewrite <- !app_assoc.
Qed.

(** X2.  When the payload cannot be decoded, the operation returns False;
    nothing is normalised or encoded (the events are the progress text, the
    request, the decode and the error line) and the file store is
    unchanged. *)
Theorem decode_failure_fails_item photo_id width description w r e :
  fs w !! output_path_of photo_id = None →
  http_get (url_of photo_id width) request_headers 30 = Ret r →
  ¬ 400 ≤ status_code r < 600 →
  image_open (content r) = Raise e →
  download_and_optimize photo_id width description w
    = (Ret false,
       World (fs w)
         (trace w ++ [Print (LDownloading (slice_to 40 description));
                      HttpGet (url_of photo_id width) request_headers 30;
                      ImageOpen (content r);
                      Print (LError (slice_to 40 (str e)))])).
Proof.
  intros Hp Hget Hst Hopen.
  unfold download_and_optimize. unfold_ops. rewrite Hp. simpl.
  rewrite Hget. rewrite bool_decide_eq_false_2 by done. simpl.
  rewrite Hopen. simpl. by rewrite <- !app_assoc.
Qed.

(** X3.  An RGB source goes to the encoder as decoded: with a non-error
    status, a non-empty payload that decodes to an RGB image and an encoder
    that succeeds, the operation makes no conversion, hands that very image
    to the encoder, writes the encoder's bytes at the item's path, reports
    the two sizes and returns True. *)
Theorem rgb_source_encoded_unchanged photo_id width description w r img data :
  fs w !! output_path_of photo_id = None →
  http_get (url_of photo_id width) request_headers 30 = Ret r →
  ¬ 400 ≤ status_code r < 600 →
  content r ≠ [] →
  image_open (content r) = Ret img →
  mode img = "RGB" →
  webp_encode img 85 6 false = Ret data →
  download_and_optimize photo_id width description w
    = (Ret true,
       World (<[output_path_of photo_id := data]> (fs w))
         (trace w ++ [Print (LDownloading (slice_to 40 description));
                      HttpGet (url_of photo_id width) request_headers 30;
                      ImageOpen (content r);
                      ImageSave (output_path_of photo_id) img "WEBP" 85 6
                        false;
                      Print (LDone (len data) (len (content r)))])).
Proof.
  intros Hp Hget Hst Hne Hopen Hmode Henc.
  unfold download_and_optimize. unfold_ops. rewrite Hp. simpl.
  rewrite Hget. rewrite bool_decide_eq_false_2 by done. simpl.
  rewrite Hopen. simpl.
  rewrite normalize_other by (rewrite Hmode; set_solver).
  rewrite decide_True by done. simpl.
  change WEBP_QUALITY with 85. rewrite Henc. simpl.
  rewrite lookup_insert_eq.
  rewrite bool_decide_eq_false_2.
  - simpl. by rewrite <- !app_assoc.
  - unfold len. destruct (content r); [done | simpl; lia].
Qed.

(** X4.  The success indicator tells whether the output file exists: for
    an item whose file was not there, with a decoder that rejects an empty
    payload, the operation returns True exactly when the file is there
    afterwards, and a False leaves the file store as it was. *)
Theorem success_iff_artifact photo_id width description w b w' :
  fs w !! output_path_of photo_id = None →
  (∀ img, image_open [] ≠ Ret img) →
  download_and_optimize photo_id width description w = (Ret b, w') →
  (b = true ↔ is_Some (fs w' !! output_path_of photo_id))
  ∧ (b = false → fs w' = fs w).
Proof.
  intros Hp Hempty. unfold download_and_optimize. unfold_ops.
  rewrite Hp. simpl.
  assert (∀ (o : outcome bool) w0,
            o = Ret false → fs w0 = fs w → (o, w0) = (Ret b, w') →
            (b = true ↔ is_Some (fs w' !! output_path_of photo_id))
            ∧ (b = false → fs w' = fs w)) as Hfail.
  { intros o w0 -> Hw0 [= <- <-]. rewrite Hw0, Hp. split; [| done].
    split; [done | by intros [? [=]]]. }
  destruct (http_get _ _ _) as [resp | e]; [| by apply Hfail].
  case_bool_decide as Hst; [by apply Hfail |].
  simpl.
  destruct (image_open (content resp)) as [img | e] eqn:Hopen;
    [| by apply Hfail].
  simpl.
  match goal with
  | |- context [normalize ?a ?c ?i ?w0] =>
      destruct (normalize_shape a c i w0) as (r & evsN & Hn & _);
        rewrite Hn; clear Hn
  end.
  destruct r as [img' | e]; [| by apply Hfail].
  simpl. destruct (webp_encode _ _ _ _) as [data | e]; [| by apply Hfail].
  simpl. rewrite lookup_insert_eq.
  case_bool_decide as Hzero.
  - exfalso. apply (Hempty img). rewrite <- Hopen. f_equal.
    unfold len in Hzero. destruct (content resp); [done | simpl in Hzero; lia].
  - simpl. intros [= <- <-]. simpl. rewrite lookup_insert_eq.
    split; [| done]. split; [by eexists | done].
Qed.

(** X5.  Running the operation again after it returned True does no work:
    whatever width and description are passed, the second call sends no
    request and makes no imaging call, prints the skip line with the size
    of the file the first call wrote, and leaves the file store alone. *)
Theorem rerun_after_success_skips photo_id width description w w'
    width2 description2 :
  fs w !! output_path_of photo_id = None →
  download_and_optimize photo_id width description w = (Ret true, w') →
  ∃ data,
    fs w' !! output_path_of photo_id = Some data
    ∧ download_and_optimize photo_id width2 description2 w'
      = (Ret true,
         World (fs w') (trace w' ++ [Print (LSkip photo_id (len data))])).
Proof.
  intros Hp Hrun.
  destruct (download_and_optimize_fresh http_get image_open core_convert
              core_paste webp_encode photo_id width description w Hp)
    as (b & w1 & evs & Heq & _ & _ & _ & _ & _ & Htrue & _).
  rewrite Hrun in Heq. injection Heq as <- <-.
  destruct (Htrue eq_refl) as (img & data & _ & _ & _ & Hfs).
  assert (fs w' !! output_path_of photo_id = Some data) as Hdata
    by (rewrite Hfs; apply lookup_insert_eq).
  exists data. split; [done |].
  by apply download_and_optimize_present.
Qed.

End PerItemPaths.

Lemma missing_ext (s1 s2 : gmap string (list byte)) items :
  (∀ it, it ∈ items → s1 !! item_path it = s2 !! item_path it) →
  missing s1 items = missing s2 items.
Proof.
  intros H. unfold missing. apply List.filter_ext_in. intros it Hit.
  apply list_elem_of_In in Hit. by rewrite (H it Hit).
Qed.

Lemma sum_Z_nonneg (l : list Z) :
  Forall (λ x : Z, (0 ≤ x)%Z) l → (0 ≤ sum_Z l)%Z.
Proof.
  unfold sum_Z. induction 1 as [| x l Hx _ IH]; simpl; lia.
Qed.

Section Runs.
Variable http_get : string → gmap string string → Z → outcome Response.
Variable image_open : list byte → outcome Image.
Variable core_convert : Image → string → outcome (list pixel).
Variable core_paste : Image → Image → option Image → outcome (list pixel).
Variable webp_encode : Image → Z → Z → bool → outcome (list byte).

#[local] Abbreviation download_and_optimize :=
  (download_and_optimize http_get image_open core_convert core_paste
     webp_encode).
#[local] Abbreviation download_all :=
  (download_all http_get image_open core_convert core_paste webp_encode).
#[local] Abbreviation outcomes :=
  (outcomes http_get image_open core_convert core_paste webp_encode).
#[local] Abbreviation main :=
  (main http_get image_open core_convert core_paste webp_encode).

Lemma download_and_optimize_offline photo_id width description w e :
  fs w !! output_path_of photo_id = None →
  http_get (url_of photo_id width) request_headers 30 = Raise e →
  ∃ w', download_and_optimize photo_id width description w = (Ret false, w')
        ∧ fs w' = fs w.
Proof.
  intros Hp Hget. unfold download_and_optimize. unfold_ops.
  rewrite Hp. simpl. rewrite Hget. simpl. by eexists.
Qed.

(** One item: what it returns, which requests it sends, and that it touches
    no path but its own. *)
Lemma download_and_optimize_step photo_id width description w :
  ∃ b w' evs,
    download_and_optimize photo_id width description w = (Ret b, w')
    ∧ adds w w' evs
    ∧ List.filter is_request evs
        = (if bool_decide (fs w !! output_path_of photo_id = None)
           then [HttpGet (url_of photo_id width) request_headers 30]
           else [])
    ∧ (∀ p, p ≠ output_path_of photo_id → fs w' !! p = fs w !! p).
Proof.
  destruct (fs w !! output_path_of photo_id) as [data |] eqn:Hp.
  - rewrite (download_and_optimize_present _ _ _ _ _ _ _ _ _ _ Hp).
    eexists _, _, _. split; [done |]. split; [done |].
    by rewrite bool_decide_eq_false_2.
  - destruct (download_and_optimize_fresh http_get image_open core_convert
                core_paste webp_encode photo_id width description w Hp)
      as (b & w' & evs & Heq & Hadds & Hreq & _ & _ & Hfs & _).
    exists b, w', evs. split; [done |]. split; [done |].
    rewrite bool_decide_eq_true_2 by done. split; [done |].
    intros p Hne. destruct Hfs as [-> | (img & data & _ & ->)]; [done |].
    by rewrite lookup_insert_ne.
Qed.

(** The loop over items with distinct output paths: one request per item
    whose file is missing at the start, in order, and no path outside the
    items' own is touched. *)
Lemma download_all_requests items :
  NoDup (item_path <$> items) →
  ∀ i success_count total_size w,
    ∃ r w' evs,
      download_all items i success_count total_size w = (r, w')
      ∧ adds w w' evs
      ∧ List.filter is_request evs = request_for <$> missing (fs w) items
      ∧ (∀ p, p ∉ item_path <$> items → fs w' !! p = fs w !! p).
Proof.
  induction items as [| [[photo_id width] description] rest IH];
    intros Hnd i s t w.
  - exists (Ret (s, t)), w, []. unfold adds. by rewrite app_nil_r.
  - rewrite fmap_cons in Hnd. apply NoDup_cons in Hnd as [Hfresh Hnd].
    rewrite download_all_cons.
    destruct (download_and_optimize_step photo_id width description
                (print (LProgress i (len IMAGES)) w).2)
      as (b & w2 & evs1 & Hdao & Hadd1 & Hreq1 & Hframe1).
    rewrite Hdao. unfold adds in *.
    change (fs (print (LProgress i (len IMAGES)) w).2) with (fs w) in *.
    change (trace (print (LProgress i (len IMAGES)) w).2)
      with (trace w ++ [Print (LProgress i (len IMAGES))]) in Hadd1.
    change (item_path (photo_id, width, description))
      with (output_path_of photo_id) in Hfresh.
    assert (missing (fs w2) rest = missing (fs w) rest) as Hsame.
    { apply missing_ext. intros it Hit. apply Hframe1. intros Heq.
      apply Hfresh. rewrite <- Heq. by apply list_elem_of_fmap_2. }
    assert (∃ r w' evs2,
              (if b
               then download_all rest (i + 1) (s + 1)
                      (t + file_size (fs w2) (output_path_of photo_id)) w2
               else download_all rest (i + 1) s t w2) = (r, w')
              ∧ trace w' = trace w2 ++ evs2
              ∧ List.filter is_request evs2
                  = request_for <$> missing (fs w2) rest
              ∧ (∀ p, p ∉ item_path <$> rest → fs w' !! p = fs w2 !! p))
      as (r & w' & evs2 & Hrest & Hadd2 & Hreq2 & Hframe2)
      by (destruct b; apply (IH Hnd)).
    exists r, w', (Print (LProgress i (len IMAGES)) :: evs1 ++ evs2).
    split; [by destruct b |].
    split; [rewrite Hadd2, Hadd1; by rewrite <- !app_assoc |].
    split.
    + simpl. rewrite List.filter_app, Hreq1, Hreq2, Hsame.
      unfold missing at 2. cbn [List.filter].
      change (item_path (photo_id, width, description))
        with (output_path_of photo_id).
      by case_bool_decide.
    + intros p Hp. rewrite fmap_cons in Hp.
      apply not_elem_of_cons in Hp as [Hne Hp].
      rewrite (Hframe2 p Hp). apply Hframe1. exact Hne.
Qed.

(** X6.  A run of [main] never removes or changes a file that was there,
    and every file it adds is the output file of one of the 29 items;
    whatever the outside answers. *)
Theorem main_keeps_existing_files w :
  ∃ w',
    main w = (Ret (), w')
    ∧ (∀ path data, fs w !! path = Some data → fs w' !! path = Some data)
    ∧ (∀ path, is_Some (fs w' !! path) →
               is_Some (fs w !! path) ∨ path ∈ expected_paths).
Proof.
  destruct (outcomes IMAGES 1 (started w)) as [bs w1] eqn:Hout.
  destruct (download_all_run http_get image_open core_convert core_paste
              webp_encode IMAGES 1 0 0 (started w) bs w1 Hout)
    as (evs & _ & _ & _ & _ & Hmono & Hnew & _).
  pose proof (main_run http_get image_open core_convert core_paste
                webp_encode w bs w1 Hout) as Hmain.
  cbv zeta in Hmain. eexists. split; [exact Hmain |].
  cbn [fs]. split; [exact Hmono | exact Hnew].
Qed.

(** X7.  A run of [main] sends exactly one request for each item whose
    output file was missing when it started, in list order, and none for an
    item whose file was there; and it touches no path other than the 29
    output paths. *)
Theorem main_requests_missing_only w :
  ∃ w' evs,
    main w = (Ret (), w')
    ∧ adds w w' evs
    ∧ List.filter is_request evs = request_for <$> missing (fs w) IMAGES
    ∧ (∀ path, path ∉ expected_paths → fs w' !! path = fs w !! path).
Proof.
  destruct (outcomes IMAGES 1 (started w)) as [bs w1] eqn:Hout.
  destruct (download_all_run http_get image_open core_convert core_paste
              webp_encode IMAGES 1 0 0 (started w) bs w1 Hout)
    as (evs & Heq & _).
  pose proof (main_run http_get image_open core_convert core_paste
                webp_encode w bs w1 Hout) as Hmain.
  cbv zeta in Hmain.
  destruct (download_all_requests IMAGES expected_paths_distinct 1 0 0
              (started w))
    as (r & w1' & evs' & Heq' & Hadds & Hreq & Hframe).
  rewrite Heq in Heq'. injection Heq' as _ <-.
  unfold adds, started in Hadds. cbn [fs trace] in Hadds, Hreq, Hframe.
  eexists _, _. split; [exact Hmain |]. unfold adds. cbn [fs trace].
  split; [rewrite Hadds, <- !app_assoc; reflexivity |].
  split; [| exact Hframe].
  rewrite !List.filter_app, Hreq.
  unfold prelude, summary. cbn [List.filter is_request].
  case_bool_decide; by rewrite app_nil_r.
Qed.

Lemma outcomes_offline :
  (∀ url headers timeout, ∃ e, http_get url headers timeout = Raise e) →
  ∀ items i w bs w',
    outcomes items i w = (bs, w') →
    fs w' = fs w ∧ succeeded items bs = present (fs w) items.
Proof.
  intros Hdown.
  induction items as [| [[photo_id width] description] rest IH];
    intros i w bs w' Hout.
  - by injection Hout as <- <-.
  - rewrite outcomes_cons in Hout.
    assert (∃ w2,
              download_and_optimize photo_id width description
                (print (LProgress i (len IMAGES)) w).2
              = (Ret (bool_decide
                        (is_Some (fs w !! output_path_of photo_id))), w2)
              ∧ fs w2 = fs w) as (w2 & Hdao & Hfs).
    { destruct (fs w !! output_path_of photo_id) as [data |] eqn:Hp.
      - eexists. split; [by apply download_and_optimize_present | done].
      - destruct (Hdown (url_of photo_id width) request_headers 30)
          as [e He].
        destruct (download_and_optimize_offline photo_id width description
                    (print (LProgress i (len IMAGES)) w).2 e Hp He)
          as (w2 & Hrun & Hfs).
        exists w2. split; [| done]. rewrite Hrun.
        by rewrite bool_decide_eq_false_2 by (by intros [? [=]]). }
    rewrite Hdao in Hout.
    destruct (outcomes rest (i + 1) w2) as [bs' w3] eqn:Hrest.
    injection Hout as <- <-.
    destruct (IH _ _ _ _ Hrest) as [Hfs3 Hsucc]. rewrite Hfs in Hfs3, Hsucc.
    split; [done |]. rewrite succeeded_cons, Hsucc.
    unfold present at 3. cbn [List.filter].
    change (item_path (photo_id, width, description))
      with (output_path_of photo_id).
    by destruct (bool_decide (is_Some (fs w !! output_path_of photo_id))).
Qed.

(** X8.  With the network down (every request raises), a run of [main]
    changes no file and its summary counts exactly the items whose file was
    already there, with the total of their sizes; it closes with the
    success message only if all 29 files were already there. *)
Theorem offline_run_reports_present_files w :
  (∀ url headers timeout, ∃ e, http_get url headers timeout = Raise e) →
  ∃ w' before,
    let success_count := len (present (fs w) IMAGES) in
    let total_size :=
      sum_Z ((λ it, file_size (fs w) (item_path it))
               <$> present (fs w) IMAGES) in
    main w = (Ret (), w')
    ∧ fs w' = fs w
    ∧ trace w' = before ++ summary success_count total_size
        ++ (if bool_decide (success_count = 29)
            then all_succeeded_message
            else partial_failure_warning (29 - success_count)).
Proof.
  intros Hdown.
  destruct (outcomes IMAGES 1 (started w)) as [bs w1] eqn:Hout.
  destruct (outcomes_offline Hdown _ _ _ _ _ Hout) as [Hfs Hsucc].
  pose proof (main_run http_get image_open core_convert core_paste
                webp_encode w bs w1 Hout) as Hmain.
  cbv zeta in Hmain. cbn [fs started] in Hfs, Hsucc.
  rewrite Hsucc, Hfs in Hmain.
  eexists _, (trace w1). cbv zeta. split; [exact Hmain |].
  split; [done |]. reflexivity.
Qed.

Lemma download_and_optimize_fetch_failed photo_id width description w :
  fs w !! output_path_of photo_id = None →
  (∃ e, http_get (url_of photo_id width) request_headers 30 = Raise e)
  ∨ (∃ r, http_get (url_of photo_id width) request_headers 30 = Ret r
          ∧ 400 ≤ status_code r < 600) →
  ∃ w', download_and_optimize photo_id width description w = (Ret false, w')
        ∧ fs w' = fs w.
Proof.
  intros Hp [[e He] | (r & Hr & Hst)].
  - by eapply download_and_optimize_offline.
  - destruct (download_and_optimize_fresh http_get image_open core_convert
                core_paste webp_encode photo_id width description w Hp)
      as (b & w' & evs & Heq & _ & _ & _ & _ & _ & _ & Herr & _).
    destruct (Herr r Hr Hst) as (-> & Hfs & _). by exists w'.
Qed.

Lemma download_all_failed_fetch items :
  NoDup (item_path <$> items) →
  ∀ i success_count total_size w it,
    it ∈ items →
    fs w !! item_path it = None →
    (∃ e, http_get (url_of it.1.1 it.1.2) request_headers 30 = Raise e)
    ∨ (∃ r, http_get (url_of it.1.1 it.1.2) request_headers 30 = Ret r
            ∧ 400 ≤ status_code r < 600) →
    ∃ r w', download_all items i success_count total_size w = (r, w')
            ∧ fs w' !! item_path it = None.
Proof.
  induction items as [| [[photo_id width] description] rest IH];
    intros Hnd i s t w it Hit Hp Hfail; [by apply elem_of_nil in Hit |].
  rewrite fmap_cons in Hnd. apply NoDup_cons in Hnd as [Hfresh Hnd].
  change (item_path (photo_id, width, description))
    with (output_path_of photo_id) in Hfresh.
  rewrite download_all_cons.
  apply elem_of_cons in Hit as [-> | Hit].
  - change (item_path (photo_id, width, description))
      with (output_path_of photo_id) in *.
    destruct (download_and_optimize_fetch_failed photo_id width description
                (print (LProgress i (len IMAGES)) w).2 Hp Hfail)
      as (w2 & Hdao & Hfs).
    rewrite Hdao.
    destruct (download_all_requests rest Hnd (i + 1) s t w2)
      as (r & w' & evs & Hrest & _ & _ & Hframe).
    exists r, w'. split; [done |].
    rewrite (Hframe _ Hfresh), Hfs. exact Hp.
  - destruct (download_and_optimize_step photo_id width description
                (print (LProgress i (len IMAGES)) w).2)
      as (b & w2 & evs1 & Hdao & _ & _ & Hframe1).
    rewrite Hdao.
    assert (fs w2 !! item_path it = None) as Hp2.
    { rewrite Hframe1; [exact Hp |]. intros Heq. apply Hfresh.
      rewrite <- Heq. by apply list_elem_of_fmap_2. }
    destruct b; by apply IH.
Qed.

(** X9.  An item whose file was missing and whose fetch fails, by an
    exception or by a 4xx or 5xx status, has no output file after the run
    of [main] and is not among the items counted as succeeded, whatever
    happens to the other items. *)
Theorem failed_fetch_leaves_no_file w it :
  it ∈ IMAGES →
  fs w !! item_path it = None →
  (∃ e, http_get (url_of it.1.1 it.1.2) request_headers 30 = Raise e)
  ∨ (∃ r, http_get (url_of it.1.1 it.1.2) request_headers 30 = Ret r
          ∧ 400 ≤ status_code r < 600) →
  ∃ w',
    main w = (Ret (), w')
    ∧ fs w' !! item_path it = None
    ∧ it ∉ succeeded IMAGES (outcomes IMAGES 1 (started w)).1.
Proof.
  intros Hit Hp Hfail.
  destruct (outcomes IMAGES 1 (started w)) as [bs w1] eqn:Hout.
  destruct (download_all_run http_get image_open core_convert core_paste
              webp_encode IMAGES 1 0 0 (started w) bs w1 Hout)
    as (evs & Heq & _ & _ & _ & _ & _ & Hsucc & _).
  pose proof (main_run http_get image_open core_convert core_paste
                webp_encode w bs w1 Hout) as Hmain.
  cbv zeta in Hmain.
  destruct (download_all_failed_fetch IMAGES expected_paths_distinct 1 0 0
              (started w) it Hit Hp Hfail) as (r & w1' & Heq' & Hnone).
  rewrite Heq in Heq'. injection Heq' as _ <-.
  eexists. split; [exact Hmain |]. cbn [fs fst]. split; [exact Hnone |].
  intros Hin. apply Hsucc in Hin as [data Hdata]. congruence.
Qed.

(** X10.  The numbers of the summary are in range: the success count is
    between 0 and 29, the total size is not negative, and when the warning
    is printed the number of failed items it reports is between 1 and
    29. *)
Theorem summary_numbers_in_range w :
  ∃ w' before success_count total_size closing,
    main w = (Ret (), w')
    ∧ trace w' = before ++ summary success_count total_size ++ closing
    ∧ (0 ≤ success_count ≤ 29)%Z
    ∧ (0 ≤ total_size)%Z
    ∧ (closing = all_succeeded_message ∧ success_count = 29
       ∨ ∃ failed, closing = partial_failure_warning failed
                   ∧ failed = 29 - success_count ∧ (1 ≤ failed ≤ 29)%Z).
Proof.
  destruct (outcomes IMAGES 1 (started w)) as [bs w1] eqn:Hout.
  pose proof (main_run http_get image_open core_convert core_paste
                webp_encode w bs w1 Hout) as Hmain.
  cbv zeta in Hmain.
  pose proof (succeeded_length IMAGES bs) as Hle.
  change (length IMAGES) with 29%nat in Hle.
  assert (0 ≤ len (succeeded IMAGES bs) ≤ 29)%Z as Hc by (unfold len; lia).
  eexists _, (trace w1), _, _, _. split; [exact Hmain |].
  cbn [trace]. split; [reflexivity |]. split; [exact Hc |]. split.
  - apply sum_Z_nonneg, Forall_fmap, Forall_forall. intros it _. simpl.
    unfold file_size. destruct (fs w1 !! item_path it); simpl; [| done].
    unfold len. lia.
  - clear Hmain. change (len IMAGES) with 29. case_bool_decide as Hall.
    + by left.
    + right. eexists. split; [reflexivity |]. split; [reflexivity | lia].
Qed.

End Runs.

Lemma DIV255_exact x : (0 ≤ x ≤ 255)%Z → DIV255 (x * 255) = x.
Proof.
  intros Hx.
  assert (Forall (λ x, DIV255 (x * 255) = x) (seqZ 0 256)) as Hall
    by (apply (bool_decide_unpack _); by vm_compute).
  rewrite Forall_forall in Hall. apply Hall, elem_of_seqZ. lia.
Qed.

Lemma blend_opaque out inp msk :
  c0 msk = 255 → byte_valued (rgb_of inp) →
  rgb_of (blend_pixel out inp msk) = rgb_of inp.
Proof.
  intros Hm (H0 & H1 & H2). unfold rgb_of, blend_pixel in *.
  cbn [c0 c1 c2 fst snd] in *. unfold BLEND8. rewrite Hm.
  change (255 - 255)%Z with 0%Z. rewrite !Z.mul_0_r, !Z.add_0_l.
  by rewrite !DIV255_exact.
Qed.

Lemma composite_opaque (src : list pixel) (n i : nat) (p : pixel) :
  length src = n → src !! i = Some p → c3 p = 255 →
  byte_valued (rgb_of p) →
  rgb_of <$>
    zip_with (λ o im_m, blend_pixel o im_m.1 im_m.2)
      (replicate n (Px 255 255 255 255))
      (zip src (map (λ p, Px (c3 p) 0 0 0) src)) !! i
  = Some (rgb_of p).
Proof.
  intros Hlen Hp Ha Hb.
  assert (i < n)%nat as Hi by (rewrite <- Hlen; by eapply lookup_lt_Some).
  change (map (λ p, Px (c3 p) 0 0 0) src)
    with ((λ p, Px (c3 p) 0 0 0) <$> src).
  rewrite !lookup_zip_with, list_lookup_fmap, Hp, lookup_replicate_2 by done.
  simpl. f_equal. by apply blend_opaque.
Qed.

Lemma composite_length (src : list pixel) (n : nat) :
  length src = n →
  length (zip_with (λ o im_m, blend_pixel o im_m.1 im_m.2)
            (replicate n (Px 255 255 255 255))
            (zip src (map (λ p, Px (c3 p) 0 0 0) src))) = n.
Proof.
  intros Hlen.
  rewrite length_zip_with, length_zip, length_replicate, length_map. lia.
Qed.

Section Compositing.
Variable core_convert : Image → string → outcome (list pixel).
Variable core_paste : Image → Image → option Image → outcome (list pixel).

#[local] Abbreviation normalize := (normalize core_convert core_paste).

(** X11.  Compositing keeps what is opaque: for a decoded image of mode
    RGBA, LA or P with byte-valued channels, the normalised image shows at
    every fully opaque pixel (alpha 255) the colour the source shows
    there. *)
Theorem opaque_pixels_keep_colour img w i c :
  mode img ∈ ["RGBA"; "LA"; "P"] →
  well_formed img →
  alpha_at img i = Some 255 →
  colour_at img i = Some c →
  byte_valued c →
  ∃ img' w',
    normalize img w = (Ret img', w')
    ∧ rgb_at img' i = Some c.
Proof.
  intros Hmode Hwf Ha Hc Hb. unfold alpha_at, colour_at in *.
  destruct (pixels img !! i) as [p |] eqn:Hp; [simpl in Ha, Hc | done].
  injection Hc as <-.
  assert ((mode img = "RGBA" ∨ mode img = "LA") ∨ mode img = "P")
    as [Hm | Hm] by (set_unfold; naive_solver).
  - rewrite normalize_alpha by done. eexists _, _. split; [reflexivity |].
    rewrite decide_False in Hb |- * by (destruct Hm as [-> | ->]; done).
    unfold rgb_at. simpl. apply composite_opaque; [done | done | | done].
    destruct Hm as [Hm | Hm]; rewrite Hm in Ha; by injection Ha.
  - rewrite normalize_palette by done. eexists _, _. split; [reflexivity |].
    rewrite decide_True in Hb |- * by done.
    unfold rgb_at. simpl.
    apply (composite_opaque _ _ _ (palette_lookup (palette img) (c0 p))).
    + by rewrite length_map.
    + change (map (λ p, palette_lookup (palette img) (c0 p)) (pixels img))
        with ((λ p, palette_lookup (palette img) (c0 p)) <$> pixels img).
      by rewrite list_lookup_fmap, Hp.
    + rewrite Hm in Ha. by injection Ha.
    + done.
Qed.

(** X12.  The compositing branch cannot fail and keeps the shape: for a
    well-formed image of mode RGBA, LA or P the normalisation returns an
    RGB image of the same size with one pixel per source pixel, and leaves
    the file store alone. *)
Theorem compositing_keeps_shape img w :
  mode img ∈ ["RGBA"; "LA"; "P"] →
  well_formed img →
  ∃ img' w',
    normalize img w = (Ret img', w')
    ∧ mode img' = "RGB"
    ∧ size img' = size img
    ∧ well_formed img'
    ∧ fs w' = fs w.
Proof.
  intros Hmode Hwf.
  assert ((mode img = "RGBA" ∨ mode img = "LA") ∨ mode img = "P")
    as [Hm | Hm] by (set_unfold; naive_solver).
  - rewrite normalize_alpha by done. eexists _, _. split; [reflexivity |].
    split; [done |]. split; [done |]. split; [| done].
    unfold well_formed. simpl. by apply composite_length.
  - rewrite normalize_palette by done. eexists _, _. split; [reflexivity |].
    split; [done |]. split; [done |]. split; [| done].
    unfold well_formed. simpl. apply composite_length.
    by rewrite length_map.
Qed.

End Compositing.

Section CompleteStore.
Variable http_get : string → gmap string string → Z → outcome Response.
Variable image_open : list byte → outcome Image.
Variable core_convert : Image → string → outcome (list pixel).
Variable core_paste : Image → Image → option Image → outcome (list pixel).
Variable webp_encode : Image → Z → Z → bool → outcome (list byte).

#[local] Abbreviation outcomes :=
  (outcomes http_get image_open core_convert core_paste webp_encode).
#[local] Abbreviation main :=
  (main http_get image_open core_convert core_paste webp_encode).

Lemma outcomes_all_present items :
  ∀ i w bs w',
    (∀ it, it ∈ items → is_Some (fs w !! item_path it)) →
    outcomes items i w = (bs, w') →
    fs w' = fs w ∧ succeeded items bs = items.
Proof.
  induction items as [| [[photo_id width] description] rest IH];
    intros i w bs w' Hall Hout.
  - by injection Hout as <- <-.
  - rewrite outcomes_cons in Hout.
    destruct (Hall (photo_id, width, description)) as [data Hdata];
      [apply list_elem_of_here |].
    change (item_path (photo_id, width, description))
      with (output_path_of photo_id) in Hdata.
    rewrite (download_and_optimize_present http_get image_open core_convert
               core_paste webp_encode photo_id width description
               (print (LProgress i (len IMAGES)) w).2 data Hdata) in Hout.
    match type of Hout with
    | context [outcomes rest (i + 1) ?w2] =>
        destruct (outcomes rest (i + 1) w2) as [bs' w3] eqn:Hrest
    end.
    injection Hout as <- <-.
    apply IH in Hrest as [Hfs Hsucc].
    + split; [exact Hfs |]. by rewrite succeeded_cons, Hsucc.
    + intros it Hit. apply Hall. by apply list_elem_of_further.
Qed.

(** X14.  Running [main] when all 29 output files are already there is a
    no-op on the outside: it sends no request, changes no file, and reports
    29 of 29 with the total of the sizes of the 29 files and the success
    message. *)
Theorem complete_store_run_is_noop w :
  (∀ path, path ∈ expected_paths → is_Some (fs w !! path)) →
  ∃ w' evs before,
    main w = (Ret (), w')
    ∧ fs w' = fs w
    ∧ adds w w' evs
    ∧ List.filter is_request evs = []
    ∧ trace w' = before
        ++ summary 29 (sum_Z ((λ it, file_size (fs w) (item_path it))
                                <$> IMAGES))
        ++ all_succeeded_message.
Proof.
  intros Hall.
  assert (∀ it, it ∈ IMAGES → is_Some (fs (started w) !! item_path it))
    as Hall' by (intros it Hit; by apply Hall, list_elem_of_fmap_2).
  destruct (outcomes IMAGES 1 (started w)) as [bs w1] eqn:Hout.
  destruct (outcomes_all_present IMAGES 1 (started w) bs w1 Hall' Hout)
    as [Hfs Hsucc].
  pose proof (main_run http_get image_open core_convert core_paste
                webp_encode w bs w1 Hout) as Hmain.
  cbv zeta in Hmain. rewrite Hsucc, Hfs in Hmain.
  rewrite bool_decide_eq_true_2 in Hmain by done.
  destruct (download_all_run http_get image_open core_convert core_paste
              webp_encode IMAGES 1 0 0 (started w) bs w1 Hout)
    as (evs & Heq & _).
  destruct (download_all_requests http_get image_open core_convert
              core_paste webp_encode IMAGES expected_paths_distinct 1 0 0
              (started w))
    as (r & w1' & evs' & Heq' & Hadds & Hreq & _).
  rewrite Heq in Heq'. injection Heq' as _ <-.
  assert (missing (fs (started w)) IMAGES = []) as Hmiss.
  { apply filter_none. intros it Hit. apply bool_decide_eq_false_2.
    destruct (Hall' it Hit) as [data Hdata]. by rewrite Hdata. }
  rewrite Hmiss in Hreq. unfold adds, started in Hadds.
  cbn [fs trace] in Hadds.
  eexists _, _, (trace w1). split; [exact Hmain |]. cbn [fs trace started].
  split; [reflexivity |].
  split; [unfold adds; cbn [trace]; rewrite Hadds, <- !app_assoc;
          reflexivity |].
  split; [| reflexivity].
  rewrite !List.filter_app, Hreq. reflexivity.
Qed.

End CompleteStore.

(** ** The further properties at concrete inputs *)

Lemma fetch_exception_fails_item_witness :
  fs empty_world !! output_path_of "photo-1" = None
  ∧ net_down (url_of "photo-1" 1920) request_headers 30
    = Raise (RequestException "Connection refused")
  ∧ download_and_optimize net_down (decode_as rgba_sample) no_core_convert
      no_core_paste encode_riff "photo-1" 1920 "Sample" empty_world
    = (Ret false,
       World (fs empty_world)
         (trace empty_world
            ++ [Print (LDownloading (slice_to 40 "Sample"));
                HttpGet (url_of "photo-1" 1920) request_headers 30;
                Print (LError (slice_to 40
                                 (str (RequestException
                                         "Connection refused"))))]))
  ∧ (String.length
       (slice_to 40 (str (RequestException "Connection refused")))
     ≤ 40)%nat.
Proof.
  assert (fs empty_world !! output_path_of "photo-1" = None) as Hp
    by reflexivity.
  split; [exact Hp |]. split; [reflexivity |].
  exact (fetch_exception_fails_item net_down (decode_as rgba_sample)
           no_core_convert no_core_paste encode_riff "photo-1" 1920 "Sample"
           empty_world (RequestException "Connection refused") Hp eq_refl).
Defined.

Lemma decode_failure_fails_item_witness :
  fs empty_world !! output_path_of "photo-1" = None
  ∧ net_status 200 [x01] (url_of "photo-1" 1920) request_headers 30
    = Ret (mkResponse 200 [x01])
  ∧ ¬ 400 ≤ status_code (mkResponse 200 [x01]) < 600
  ∧ decode_fails (content (mkResponse 200 [x01]))
    = Raise (UnidentifiedImageError "cannot identify image file")
  ∧ download_and_optimize (net_status 200 [x01]) decode_fails
      no_core_convert no_core_paste encode_riff "photo-1" 1920 "Sample"
      empty_world
    = (Ret false,
       World (fs empty_world)
         (trace empty_world
            ++ [Print (LDownloading (slice_to 40 "Sample"));
                HttpGet (url_of "photo-1" 1920) request_headers 30;
                ImageOpen (content (mkResponse 200 [x01]));
                Print (LError
                         (slice_to 40
                            (str (UnidentifiedImageError
                                    "cannot identify image file"))))])).
Proof.
  assert (fs empty_world !! output_path_of "photo-1" = None) as Hp
    by reflexivity.
  assert (¬ 400 ≤ status_code (mkResponse 200 [x01]) < 600) as Hst
    by (simpl; lia).
  split; [exact Hp |]. split; [reflexivity |]. split; [exact Hst |].
  split; [reflexivity |].
  exact (decode_failure_fails_item (net_status 200 [x01]) decode_fails
           no_core_convert no_core_paste encode_riff "photo-1" 1920 "Sample"
           empty_world (mkResponse 200 [x01])
           (UnidentifiedImageError "cannot identify image file")
           Hp eq_refl Hst eq_refl).
Defined.

Lemma rgb_source_encoded_unchanged_witness :
  fs empty_world !! output_path_of "photo-1" = None
  ∧ ¬ 400 ≤ status_code (mkResponse 200 [x01]) < 600
  ∧ content (mkResponse 200 [x01]) ≠ []
  ∧ mode rgb_sample = "RGB"
  ∧ download_and_optimize (net_status 200 [x01]) (decode_as rgb_sample)
      no_core_convert no_core_paste encode_riff "photo-1" 1920 "Sample"
      empty_world
    = (Ret true,
       World (<[output_path_of "photo-1" := [x52; x49; x46; x46]]>
                (fs empty_world))
         (trace empty_world
            ++ [Print (LDownloading (slice_to 40 "Sample"));
                HttpGet (url_of "photo-1" 1920) request_headers 30;
                ImageOpen (content (mkResponse 200 [x01]));
                ImageSave (output_path_of "photo-1") rgb_sample "WEBP" 85 6
                  false;
                Print (LDone (len [x52; x49; x46; x46])
                         (len (content (mkResponse 200 [x01]))))])).
Proof.
  assert (fs empty_world !! output_path_of "photo-1" = None) as Hp
    by reflexivity.
  assert (¬ 400 ≤ status_code (mkResponse 200 [x01]) < 600) as Hst
    by (simpl; lia).
  assert (content (mkResponse 200 [x01]) ≠ []) as Hne by (simpl; discriminate).
  split; [exact Hp |]. split; [exact Hst |]. split; [exact Hne |].
  split; [reflexivity |].
  exact (rgb_source_encoded_unchanged (net_status 200 [x01])
           (decode_as rgb_sample) no_core_convert no_core_paste encode_riff
           "photo-1" 1920 "Sample" empty_world (mkResponse 200 [x01])
           rgb_sample [x52; x49; x46; x46] Hp eq_refl Hst Hne eq_refl
           eq_refl eq_refl).
Defined.

Lemma success_iff_artifact_witness :
  fs empty_world !! output_path_of "photo-1" = None
  ∧ (∀ img, decode_nonempty_as rgba_sample [] ≠ Ret img)
  ∧ download_and_optimize (net_status 200 [x01])
      (decode_nonempty_as rgba_sample) no_core_convert no_core_paste
      encode_riff "photo-1" 1920 "Sample" empty_world
    = (Ret true, fetched_world)
  ∧ (true = true ↔ is_Some (fs fetched_world !! output_path_of "photo-1"))
  ∧ (true = false → fs fetched_world = fs empty_world).
Proof.
  assert (fs empty_world !! output_path_of "photo-1" = None) as Hp
    by reflexivity.
  assert (∀ img, decode_nonempty_as rgba_sample [] ≠ Ret img) as Hempty
    by (intros img; simpl; discriminate).
  assert (download_and_optimize (net_status 200 [x01])
            (decode_nonempty_as rgba_sample) no_core_convert no_core_paste
            encode_riff "photo-1" 1920 "Sample" empty_world
          = (Ret true, fetched_world)) as Hrun by (vm_compute; reflexivity).
  split; [exact Hp |]. split; [exact Hempty |]. split; [exact Hrun |].
  exact (success_iff_artifact (net_status 200 [x01])
           (decode_nonempty_as rgba_sample) no_core_convert no_core_paste
           encode_riff "photo-1" 1920 "Sample" empty_world true fetched_world
           Hp Hempty Hrun).
Defined.

Lemma rerun_after_success_skips_witness :
  fs empty_world !! output_path_of "photo-1" = None
  ∧ download_and_optimize (net_status 200 [x01]) (decode_as rgba_sample)
      no_core_convert no_core_paste encode_riff "photo-1" 1920 "Sample"
      empty_world = (Ret true, fetched_world)
  ∧ ∃ data,
      fs fetched_world !! output_path_of "photo-1" = Some data
      ∧ download_and_optimize (net_status 200 [x01]) (decode_as rgba_sample)
          no_core_convert no_core_paste encode_riff "photo-1" 800 "Again"
          fetched_world
        = (Ret true,
           World (fs fetched_world)
             (trace fetched_world ++ [Print (LSkip "photo-1" (len data))])).
Proof.
  assert (fs empty_world !! output_path_of "photo-1" = None) as Hp
    by reflexivity.
  assert (download_and_optimize (net_status 200 [x01])
            (decode_as rgba_sample) no_core_convert no_core_paste encode_riff
            "photo-1" 1920 "Sample" empty_world = (Ret true, fetched_world))
    as Hrun by (vm_compute; reflexivity).
  split; [exact Hp |]. split; [exact Hrun |].
  exact (rerun_after_success_skips (net_status 200 [x01])
           (decode_as rgba_sample) no_core_convert no_core_paste encode_riff
           "photo-1" 1920 "Sample" empty_world fetched_world 800 "Again"
           Hp Hrun).
Defined.

Lemma offline_run_reports_present_files_witness :
  (∀ url headers timeout, ∃ e, net_down url headers timeout = Raise e)
  ∧ ∃ w' before,
      let success_count := len (present (fs one_file_world) IMAGES) in
      let total_size :=
        sum_Z ((λ it, file_size (fs one_file_world) (item_path it))
                 <$> present (fs one_file_world) IMAGES) in
      main net_down (decode_as rgba_sample) no_core_convert no_core_paste
        encode_riff one_file_world = (Ret (), w')
      ∧ fs w' = fs one_file_world
      ∧ trace w' = before ++ summary success_count total_size
          ++ (if bool_decide (success_count = 29)
              then all_succeeded_message
              else partial_failure_warning (29 - success_count)).
Proof.
  assert (∀ url headers timeout,
            ∃ e, net_down url headers timeout = Raise e) as Hdown
    by (intros url headers timeout; eexists; reflexivity).
  split; [exact Hdown |].
  exact (offline_run_reports_present_files net_down (decode_as rgba_sample)
           no_core_convert no_core_paste encode_riff one_file_world Hdown).
Defined.

Lemma failed_fetch_leaves_no_file_witness :
  ("photo-1503387762-592deb58ef4e", 1920,
   "Architect reviewing building plans") ∈ IMAGES
  ∧ fs empty_world
      !! item_path ("photo-1503387762-592deb58ef4e", 1920,
                    "Architect reviewing building plans") = None
  ∧ ∃ w',
      main net_down (decode_as rgba_sample) no_core_convert no_core_paste
        encode_riff empty_world = (Ret (), w')
      ∧ fs w'
          !! item_path ("photo-1503387762-592deb58ef4e", 1920,
                        "Architect reviewing building plans") = None
      ∧ ("photo-1503387762-592deb58ef4e", 1920,
         "Architect reviewing building plans")
        ∉ succeeded IMAGES
            (outcomes net_down (decode_as rgba_sample) no_core_convert
               no_core_paste encode_riff IMAGES 1 (started empty_world)).1.
Proof.
  assert (("photo-1503387762-592deb58ef4e", 1920,
           "Architect reviewing building plans") ∈ IMAGES) as Hin
    by (unfold IMAGES; apply list_elem_of_here).
  assert (fs empty_world
            !! item_path ("photo-1503387762-592deb58ef4e", 1920,
                          "Architect reviewing building plans") = None)
    as Hp by reflexivity.
  split; [exact Hin |]. split; [exact Hp |].
  exact (failed_fetch_leaves_no_file net_down (decode_as rgba_sample)
           no_core_convert no_core_paste encode_riff empty_world _ Hin Hp
           (or_introl
              (ex_intro _ (RequestException "Connection refused") eq_refl))).
Defined.

Lemma opaque_pixels_keep_colour_witness :
  mode rgba_sample ∈ ["RGBA"; "LA"; "P"]
  ∧ well_formed rgba_sample
  ∧ alpha_at rgba_sample 1 = Some 255
  ∧ colour_at rgba_sample 1 = Some (10, 20, 30)
  ∧ byte_valued (10, 20, 30)
  ∧ ∃ img' w',
      normalize no_core_convert no_core_paste rgba_sample empty_world
        = (Ret img', w')
      ∧ rgb_at img' 1 = Some (10, 20, 30).
Proof.
  assert (mode rgba_sample ∈ ["RGBA"; "LA"; "P"]) as Hm
    by (apply (bool_decide_unpack _); vm_compute; exact I).
  assert (well_formed rgba_sample) as Hwf by reflexivity.
  assert (alpha_at rgba_sample 1 = Some 255) as Ha by reflexivity.
  assert (colour_at rgba_sample 1 = Some (10, 20, 30)) as Hc by reflexivity.
  assert (byte_valued (10, 20, 30)) as Hb
    by (unfold byte_valued; simpl; lia).
  split; [exact Hm |]. split; [exact Hwf |]. split; [exact Ha |].
  split; [exact Hc |]. split; [exact Hb |].
  exact (opaque_pixels_keep_colour no_core_convert no_core_paste rgba_sample
           empty_world 1%nat (10, 20, 30) Hm Hwf Ha Hc Hb).
Defined.

Lemma compositing_keeps_shape_witness :
  mode palette_sample ∈ ["RGBA"; "LA"; "P"]
  ∧ well_formed palette_sample
  ∧ ∃ img' w',
      normalize no_core_convert no_core_paste palette_sample empty_world
        = (Ret img', w')
      ∧ mode img' = "RGB"
      ∧ size img' = size palette_sample
      ∧ well_formed img'
      ∧ fs w' = fs empty_world.
Proof.
  assert (mode palette_sample ∈ ["RGBA"; "LA"; "P"]) as Hm
    by (apply (bool_decide_unpack _); vm_compute; exact I).
  assert (well_formed palette_sample) as Hwf by reflexivity.
  split; [exact Hm |]. split; [exact Hwf |].
  exact (compositing_keeps_shape no_core_convert no_core_paste palette_sample
           empty_world Hm Hwf).
Defined.

Lemma complete_store_run_is_noop_witness :
  (∀ path, path ∈ expected_paths → is_Some (fs complete_world !! path))
  ∧ ∃ w' evs before,
      main net_down (decode_as rgba_sample) no_core_convert no_core_paste
        encode_riff complete_world = (Ret (), w')
      ∧ fs w' = fs complete_world
      ∧ adds complete_world w' evs
      ∧ List.filter is_request evs = []
      ∧ trace w' = before
          ++ summary 29
               (sum_Z ((λ it, file_size (fs complete_world) (item_path it))
                         <$> IMAGES))
          ++ all_succeeded_message.
Proof.
  assert (∀ path, path ∈ expected_paths →
                  is_Some (fs complete_world !! path)) as Hall.
  { apply Forall_forall. apply (bool_decide_unpack _). vm_compute. exact I. }
  split; [exact Hall |].
  exact (complete_store_run_is_noop net_down (decode_as rgba_sample)
           no_core_convert no_core_paste encode_riff complete_world Hall).
Defined.
